(** * GoGrid load-balancer driver: a shallow embedding

    The development follows [libcloud/loadbalancer/drivers/gogrid.py].
    Python values that travel through the driver (parsed JSON bodies,
    identifiers, addresses, ports, names) are terms of [json]; a Python
    [dict] used as a parameter table is a [gmap]; exceptions are the
    [Err] side of [Result]; the connection is an explicit piece of state
    that every request threads through. *)

From Stdlib Require Import Ascii.
From stdpp Require Import base strings gmap list pretty.
From Equations Require Import Equations.

Open Scope string_scope.
Open Scope list_scope.
Open Scope Z_scope.

(** ** Python values *)

(** The values a JSON parser hands to the driver.  [JNull] is Python's
    [None].  A parsed object keeps its items as a list, looked up by the
    first occurrence of a key.  Numbers are integers. *)
Local Unset Elimination Schemes.
Inductive json : Type :=
| JNull
| JNum (n : Z)
| JStr (s : string)
| JArr (l : list json)
| JObj (o : list (string * json)).
Local Set Elimination Schemes.

(** Decidable equality, used for Python's [==] and [!=] on these values. *)
Definition json_eq_dec : ∀ a b : json, {a = b} + {a ≠ b}.
Proof.
  fix IH 1. intros a b. destruct a as [|n|s|l|o], b as [|n'|s'|l'|o'];
    try (right; discriminate); try (left; reflexivity).
  - destruct (decide (n = n')) as [->|Hn]; [left; reflexivity|right; congruence].
  - destruct (decide (s = s')) as [->|Hs]; [left; reflexivity|right; congruence].
  - assert (Hl : {l = l'} + {l ≠ l'}).
    { revert l'. induction l as [|x l IHl]; intros [|x' l'];
        try (right; discriminate); try (left; reflexivity).
      destruct (IH x x') as [->|Hx]; [|right; congruence].
      destruct (IHl l') as [->|Hl]; [left; reflexivity|right; congruence]. }
    destruct Hl as [->|Hl]; [left; reflexivity|right; congruence].
  - assert (Ho : {o = o'} + {o ≠ o'}).
    { revert o'. induction o as [|[k x] o IHo]; intros [|[k' x'] o'];
        try (right; discriminate); try (left; reflexivity).
      destruct (decide (k = k')) as [->|Hk]; [|right; congruence].
      destruct (IH x x') as [->|Hx]; [|right; congruence].
      destruct (IHo o') as [->|Ho]; [left; reflexivity|right; congruence]. }
    destruct Ho as [->|Ho]; [left; reflexivity|right; congruence].
Defined.

#[global] Instance json_eq_decision : EqDecision json := json_eq_dec.

(** ** Exceptions *)

(** What the connection raises: an exception of some class whose [str()]
    is [exn_text]. *)
Record VendorExn : Type := MkVendorExn { exn_class : string; exn_text : string }.

Inductive Exn : Type :=
| KeyError (key : json)
| IndexError
| TypeError
| AttributeError
| LibcloudError (value : string)
| LibcloudLBImmutableError (value : string)
| Exception (msg : string)
| UnboundLocalError (name : string)
| TransportError (e : VendorExn).

Inductive Result (A : Type) : Type :=
| Ok (a : A)
| Err (e : Exn).
Arguments Ok {A} a.
Arguments Err {A} e.

#[global] Instance Result_ret : MRet Result := λ A a, Ok a.
#[global] Instance Result_bind : MBind Result := λ A B f r,
  match r with Ok a => f a | Err e => Err e end.

(** ** Subscripting, [.get], iteration and [in] *)

Fixpoint assoc (k : string) (o : list (string * json)) : option json :=
  match o with
  | [] => None
  | (k', v) :: o' => if decide (k = k') then Some v else assoc k o'
  end.

(** [v[k]] for a string key [k]. *)
Definition getitem (v : json) (k : string) : Result json :=
  match v with
  | JObj o => match assoc k o with
              | Some x => Ok x
              | None => Err (KeyError (JStr k))
              end
  | _ => Err TypeError
  end.

(** [v.get(k)]: only a dict has the method. *)
Definition py_get (v : json) (k : string) : Result json :=
  match v with
  | JObj o => Ok (default JNull (assoc k o))
  | _ => Err AttributeError
  end.

(** [v[0]]. *)
Definition getitem0 (v : json) : Result json :=
  match v with
  | JArr (x :: _) => Ok x
  | JArr [] => Err IndexError
  | JStr (String c _) => Ok (JStr (String c ""))
  | JStr "" => Err IndexError
  | JObj _ => Err (KeyError (JNum 0))
  | _ => Err TypeError
  end.

Fixpoint chars (s : string) : list json :=
  match s with
  | "" => []
  | String c s' => JStr (String c "") :: chars s'
  end.

(** [for el in v]: a list yields its elements, a string its characters,
    a dict its keys. *)
Definition py_iter (v : json) : Result (list json) :=
  match v with
  | JArr l => Ok l
  | JStr s => Ok (chars s)
  | JObj o => Ok (JStr <$> remove_dups o.*1)
  | _ => Err TypeError
  end.

(** [l[0]] on a Python list built by a comprehension. *)
Definition first {A} (l : list A) : Result A :=
  match l with
  | x :: _ => Ok x
  | [] => Err IndexError
  end.

Fixpoint starts_with (needle hay : string) : bool :=
  match needle, hay with
  | "", _ => true
  | String a n', String b h' => if decide (a = b) then starts_with n' h' else false
  | String _ _, "" => false
  end.

(** [needle in hay] on strings. *)
Fixpoint str_in (needle hay : string) : bool :=
  starts_with needle hay ||
  match hay with
  | "" => false
  | String _ h' => str_in needle h'
  end.

(** ** The neutral domain model *)

(** Modelled from the spec: the neutral types of [libcloud.loadbalancer.base]
    and [libcloud.loadbalancer.types] ([Algorithm], [State], [LoadBalancer],
    [Member]) are imported by the driver and are not part of its file. The
    spec gives [Algorithm] the two values below, [State] the values
    [RUNNING] and [UNKNOWN], a balancer an identifier, a name, a state, a
    public address, a port and a reference to the owning adapter, and a member
    an identifier, an address and a port. *)
Inductive Algorithm : Type := ROUND_ROBIN | LEAST_CONNECTIONS.

Inductive State : Type := RUNNING | UNKNOWN.

Inductive DriverRef : Type := GoGridLBDriver.

Record LoadBalancer : Type := MkLoadBalancer {
  lb_id : json;
  lb_name : json;
  lb_state : State;
  lb_ip : json;
  lb_port : json;
  lb_driver : DriverRef
}.

Record Member : Type := MkMember {
  m_id : json;
  m_ip : json;
  m_port : json
}.

#[global] Instance Algorithm_eq_decision : EqDecision Algorithm.
Proof. solve_decision. Defined.

#[global] Instance Algorithm_countable : Countable Algorithm.
Proof.
  refine (inj_countable' (λ a, match a with ROUND_ROBIN => 0%nat | LEAST_CONNECTIONS => 1%nat end)
                         (λ n, match n with O => ROUND_ROBIN | _ => LEAST_CONNECTIONS end) _).
  intros []; reflexivity.
Defined.

#[global] Instance State_eq_decision : EqDecision State.
Proof. solve_decision. Defined.

(** ** The static tables *)

Definition LB_STATE_MAP : gmap string State :=
  <["On" := RUNNING]> (<["Unknown" := UNKNOWN]> ∅).

Definition _VALUE_TO_ALGORITHM_MAP : gmap string Algorithm :=
  <["round balancer" := ROUND_ROBIN]> (<["least connection" := LEAST_CONNECTIONS]> ∅).

(** Modelled from the spec: [reverse_dict] of [libcloud.utils] is not part
    of the driver's file.  The spec has the reverse table built once from the
    single forward mapping: every item [(key, value)] of the forward table
    becomes the item [(value, key)]. *)
Definition reverse_dict `{Countable K, Countable V} (d : gmap K V) : gmap V K :=
  list_to_map (prod_swap <$> map_to_list d).

Definition _ALGORITHM_TO_VALUE_MAP : gmap Algorithm string :=
  reverse_dict _VALUE_TO_ALGORITHM_MAP.

(** Modelled from the spec: [Driver._algorithm_to_value] of
    [libcloud.loadbalancer.base] is not part of the driver's file.  The spec
    has it resolve the neutral algorithm to the vendor token by a lookup in
    the reverse table; an algorithm the table lacks is a library error. *)
Definition _algorithm_to_value (algorithm : Algorithm) : Result string :=
  match _ALGORITHM_TO_VALUE_MAP !! algorithm with
  | Some value => Ok value
  | None => Err (LibcloudError "Invalid algorithm")
  end.

(** ** Requests and responses *)

Inductive Method : Type := GET | POST.

(** A request parameter: a value, or a neutral algorithm constant handed to
    the connection as it is. *)
Inductive Param : Type :=
| PVal (v : json)
| PAlgorithm (a : Algorithm).

Record Request : Type := MkRequest {
  path : string;
  method : Method;
  params : gmap string Param
}.

Record Response : Type := MkResponse {
  status : Z;
  object : json
}.

Inductive Event : Type :=
| EvRequest (r : Request)
| EvSleep (seconds : Z).

(** ** Parsing responses *)

(** [LB_STATE_MAP.get(name, State.UNKNOWN)]: a list or dict cannot be
    hashed. *)
Definition state_of (name : json) : Result State :=
  match name with
  | JStr s => Ok (default UNKNOWN (LB_STATE_MAP !! s))
  | JNull | JNum _ => Ok UNKNOWN
  | JArr _ | JObj _ => Err TypeError
  end.

(** The arguments of [LoadBalancer(...)] are evaluated in the order they
    are written. *)
Definition _to_balancer (el : json) : Result LoadBalancer :=
  id ← py_get el "id";
  name ← getitem el "name";
  st ← getitem el "state";
  state_name ← getitem st "name";
  state ← state_of state_name;
  vip ← getitem el "virtualip";
  vip_ip ← getitem vip "ip";
  ip ← getitem vip_ip "ip";
  vip' ← getitem el "virtualip";
  port ← getitem vip' "port";
  mret (MkLoadBalancer id name state ip port GoGridLBDriver).

Definition _to_balancers (object : json) : Result (list LoadBalancer) :=
  l ← getitem object "list";
  els ← py_iter l;
  mapM _to_balancer els.

Definition _to_member (el : json) : Result Member :=
  el_ip ← getitem el "ip";
  id ← getitem el_ip "id";
  el_ip' ← getitem el "ip";
  ip ← getitem el_ip' "ip";
  port ← getitem el "port";
  mret (MkMember id ip port).

Definition _to_members (object : json) : Result (list Member) :=
  els ← py_iter object;
  mapM _to_member els.

(** [resp.object["list"][0]["realiplist"]]. *)
Definition realiplist_of (object : json) : Result json :=
  l ← getitem object "list";
  el ← getitem0 l;
  getitem el "realiplist".

(** ** Encoding members as parameters *)

Definition ip_key (i : nat) : string := "realiplist." +:+ pretty i +:+ ".ip".
Definition port_key (i : nat) : string := "realiplist." +:+ pretty i +:+ ".port".

Fixpoint _members_to_params_from (i : nat) (members : list Member)
    (params : gmap string Param) : gmap string Param :=
  match members with
  | [] => params
  | member :: rest =>
      _members_to_params_from (S i) rest
        (<[port_key i := PVal (m_port member)]>
           (<[ip_key i := PVal (m_ip member)]> params))
  end.

Definition _members_to_params (members : list Member) : gmap string Param :=
  _members_to_params_from 0 members ∅.

(** [params.update(other)]: the entries of [other] win. *)
Definition dict_update (params other : gmap string Param) : gmap string Param :=
  other ∪ params.

(** The request of [list_balancers]: the path alone, so the connection's
    default method and no parameters. *)
Definition list_request : Request :=
  MkRequest "/api/grid/loadbalancer/list" GET ∅.

Definition is_list_call (e : Event) : bool :=
  match e with
  | EvRequest r => bool_decide (path r = "/api/grid/loadbalancer/list")
  | EvSleep _ => false
  end.

(** How many requests to the listing endpoint a stretch of the log holds. *)
Definition list_calls (evs : list Event) : nat :=
  length (filter (λ e, is_list_call e) evs).

(** ** The driver *)

Section Driver.

(** The connection is a collaborator: some state [Conn] and a transition
    that answers a request with a response or raises. *)
Variable Conn : Type.
Variable transport : Request → Conn → (VendorExn + Response) * Conn.

(** What a run can observe: the connection, and the requests and sleeps
    so far, oldest first. *)
Record World : Type := MkWorld {
  conn : Conn;
  log : list Event
}.

Definition M (A : Type) : Type := World → Result A * World.

Definition ret {A} (a : A) : M A := λ w, (Ok a, w).
Definition raise {A} (e : Exn) : M A := λ w, (Err e, w).
Definition bind {A B} (c : M A) (k : A → M B) : M B := λ w,
  match c w with
  | (Ok a, w') => k a w'
  | (Err e, w') => (Err e, w')
  end.
Definition lift {A} (r : Result A) : M A := λ w, (r, w).

Notation "x <- c ;; k" := (bind c (λ x, k))
  (at level 100, c at next level, right associativity).

(** [self.connection.request(path, method=..., params=...)], with the
    outcome still to be matched on: the body of a [try]. *)
Definition try_request (r : Request) : World → (VendorExn + Response) * World := λ w,
  let '(out, c) := transport r (conn w) in
  (out, MkWorld c (log w ++ [EvRequest r])).

(** The same call outside a [try]: what the connection raises propagates.
    A call that names no method is a GET, one that names no parameters
    sends none. *)
Definition request (r : Request) : M Response := λ w,
  match try_request r w with
  | (inr resp, w') => (Ok resp, w')
  | (inl err, w') => (Err (TransportError err), w')
  end.

(** [time.sleep(seconds)]. *)
Definition sleep (seconds : Z) : M () := λ w,
  (Ok (), MkWorld (conn w) (log w ++ [EvSleep seconds])).

(** The default algorithm of [libcloud.loadbalancer.base] and the address
    allocator of the GoGrid base driver are imported by the driver. *)
Variable DEFAULT_ALGORITHM : Algorithm.
Variable _get_first_ip : M json.

Definition list_balancers : M (list LoadBalancer) :=
  resp <- request list_request ;;
  lift (_to_balancers (object resp)).

(** [algorithm] is [None] when the caller asks for none: the case of
    [if not algorithm].  The [dict] literal evaluates its values in order, so
    the address is allocated after the algorithm is resolved. *)
Definition ex_create_balancer_nowait (name port : json)
    (algorithm : option Algorithm) (members : list Member) : M LoadBalancer :=
  algorithm' <- match algorithm with
                | None => ret (PAlgorithm DEFAULT_ALGORITHM)
                | Some a => value <- lift (_algorithm_to_value a) ;;
                            ret (PVal (JStr value))
                end ;;
  ip <- _get_first_ip ;;
  let params : gmap string Param :=
    <["virtualip.port" := PVal port]>
      (<["virtualip.ip" := PVal ip]>
         (<["loadbalancer.type" := algorithm']>
            (<["name" := PVal name]> ∅))) in
  let params := dict_update params (_members_to_params members) in
  resp <- request (MkRequest "/api/grid/loadbalancer/add" GET params) ;;
  balancers <- lift (_to_balancers (object resp)) ;;
  lift (first balancers).

Definition timeout : Z := 60 * 20.
Definition interval : Z := 2 * 15.

(** The test of the [for] loop inside the polling loop. *)
Definition resolved (balancer i : LoadBalancer) : bool :=
  bool_decide (lb_name i = lb_name balancer) && bool_decide (lb_id i ≠ JNull).

(** [while waittime < timeout: ...] followed by the final [raise]. *)
Equations? poll (balancer : LoadBalancer) (waittime : Z) (w : World)
    : Result LoadBalancer * World by wf (Z.to_nat (timeout - waittime)) lt :=
  poll balancer waittime w with decide (waittime < timeout) := {
    | left _ with list_balancers w := {
        | (Err e, w1) => (Err e, w1)
        | (Ok balancers, w1) with find (resolved balancer) balancers := {
            | Some i => (Ok i, w1)
            | None => poll balancer (waittime + interval) (snd (sleep interval w1)) } }
    | right _ => (Err (Exception "Failed to get id"), w) }.
Proof. unfold timeout, interval in *. lia. Qed.

(** The world after one round of the loop that found nothing: a listing,
    then the sleep; and after [k] such rounds. *)
Definition poll_round (w : World) : World :=
  snd (sleep interval (snd (list_balancers w))).

Definition world_after_polls (k : nat) (w : World) : World :=
  Nat.iter k poll_round w.

Definition create_balancer (name port : json)
    (algorithm : option Algorithm) (members : list Member) : M LoadBalancer :=
  balancer <- ex_create_balancer_nowait name port algorithm members ;;
  if bool_decide (lb_id balancer ≠ JNull) then ret balancer
  else poll balancer 0.

Definition destroy_balancer (balancer : LoadBalancer) : M bool := λ w,
  match try_request (MkRequest "/api/grid/loadbalancer/delete" POST
                       {["id" := PVal (lb_id balancer)]}) w with
  | (inl err, w') =>
      if str_in "Update request for LoadBalancer" (exn_text err)
      then (Err (LibcloudLBImmutableError "Cannot delete immutable object"), w')
      else (Err (TransportError err), w')
  | (inr resp, w') => (Ok (bool_decide (status resp = 200)), w')
  end.

(** [kwargs] is the dict of keyword arguments; the second lookup runs in
    the handler of the first one's [KeyError]. *)
Definition get_balancer (kwargs : gmap string json) : M LoadBalancer :=
  params <- match kwargs !! "ex_balancer_name" with
            | Some name => ret (<["name" := PVal name]> (∅ : gmap string Param))
            | None =>
                match kwargs !! "balancer_id" with
                | Some balancer_id => ret (<["id" := PVal balancer_id]> ∅)
                | None => raise (KeyError (JStr "balancer_id"))
                end
            end ;;
  resp <- request (MkRequest "/api/grid/loadbalancer/get" GET params) ;;
  balancers <- lift (_to_balancers (object resp)) ;;
  lift (first balancers).

Definition balancer_list_members (balancer : LoadBalancer) : M (list Member) :=
  resp <- request (MkRequest "/api/grid/loadbalancer/get" GET
                     {["id" := PVal (lb_id balancer)]}) ;;
  l <- lift (realiplist_of (object resp)) ;;
  lift (_to_members l).

(** The final [raise] stands after the [except] block and is reached
    exactly when the request raised and the text did not match.  The name
    [err] is bound by [except ... as err] and unbound again when the handler
    ends, so evaluating [str(err)] there raises [UnboundLocalError] before any
    [LibcloudError] is built. *)
Definition _update_balancer (params : gmap string Param) : M Response := λ w,
  match try_request (MkRequest "/api/grid/loadbalancer/edit" POST params) w with
  | (inr resp, w') => (Ok resp, w')
  | (inl err, w') =>
      if str_in "Update already pending" (exn_text err)
      then (Err (LibcloudLBImmutableError "Balancer is immutable"), w')
      else (Err (UnboundLocalError "err"), w')
  end.

Definition balancer_attach_member (balancer : LoadBalancer) (member : Member)
    : M Member :=
  members <- balancer_list_members balancer ;;
  let members := members ++ [member] in
  let params : gmap string Param := {["id" := PVal (lb_id balancer)]} in
  let params := dict_update params (_members_to_params members) in
  resp <- _update_balancer params ;;
  l <- lift (realiplist_of (object resp)) ;;
  ms <- lift (_to_members l) ;;
  lift (first (filter (λ m, m_ip m = m_ip member) ms)).

Definition balancer_detach_member (balancer : LoadBalancer) (member : Member)
    : M bool :=
  members <- balancer_list_members balancer ;;
  let remaining_members := filter (λ n, m_id n ≠ m_id member) members in
  let params : gmap string Param := {["id" := PVal (lb_id balancer)]} in
  let params := dict_update params (_members_to_params remaining_members) in
  resp <- _update_balancer params ;;
  ret (bool_decide (status resp = 200)).

End Driver.

Arguments MkWorld {Conn} conn log.
Arguments conn {Conn} w.
Arguments log {Conn} w.
Arguments M Conn A : clear implicits.
Arguments ret {Conn A} a w.
Arguments raise {Conn A} e w.
Arguments bind {Conn A B} c k w.
Arguments lift {Conn A} r w.
Arguments try_request {Conn} transport r w.
Arguments request {Conn} transport r w.
Arguments sleep {Conn} seconds w.
Arguments list_balancers {Conn} transport w.
Arguments ex_create_balancer_nowait {Conn} transport DEFAULT_ALGORITHM _get_first_ip
  name port algorithm members w.
Arguments poll {Conn} transport balancer waittime w.
Arguments poll_round {Conn} transport w.
Arguments world_after_polls {Conn} transport k w.
Arguments create_balancer {Conn} transport DEFAULT_ALGORITHM _get_first_ip
  name port algorithm members w.
Arguments destroy_balancer {Conn} transport balancer w.
Arguments get_balancer {Conn} transport kwargs w.
Arguments balancer_list_members {Conn} transport balancer w.
Arguments _update_balancer {Conn} transport params w.
Arguments balancer_attach_member {Conn} transport balancer member w.
Arguments balancer_detach_member {Conn} transport balancer member w.

(** * Fixtures

    Concrete responses, connections and members on which the driver can run. *)

Module Fixture.

Definition members_json : json :=
  JArr [JObj [("ip", JObj [("id", JNum 1); ("ip", JStr "10.0.0.1")]); ("port", JNum 80)];
        JObj [("ip", JObj [("id", JNum 2); ("ip", JStr "10.0.0.2")]); ("port", JNum 80)];
        JObj [("ip", JObj [("id", JNum 3); ("ip", JStr "10.0.0.2")]); ("port", JNum 81)]].

(** A list element without "id": the balancer is still being provisioned. *)
Definition el_pending : json :=
  JObj [("name", JStr "lb"); ("state", JObj [("name", JStr "Off")]);
        ("virtualip", JObj [("ip", JObj [("ip", JStr "9.9.9.9")]); ("port", JNum 80)]);
        ("realiplist", members_json)].

Definition el_ready : json :=
  JObj [("id", JNum 7); ("name", JStr "lb"); ("state", JObj [("name", JStr "On")]);
        ("virtualip", JObj [("ip", JObj [("ip", JStr "9.9.9.9")]); ("port", JNum 80)]);
        ("realiplist", members_json)].

Definition body (el : json) : json := JObj [("list", JArr [el])].

(** Connections whose state counts the requests served. *)
Definition answers (el : json) (r : Request) (c : nat) : (VendorExn + Response) * nat :=
  (inr (MkResponse 200 (body el)), S c).

Definition refuses (text : string) (r : Request) (c : nat) : (VendorExn + Response) * nat :=
  (inl (MkVendorExn "Exception" text), S c).

(** A connection that still lists the pending element while fewer than [n]
    requests were served, and the ready one from then on. *)
Definition answers_after (n : nat) (r : Request) (c : nat) : (VendorExn + Response) * nat :=
  (inr (MkResponse 200 (body (if decide (c < n)%nat then el_pending else el_ready))), S c).

(** A connection on which requests to one path raise and all others are
    answered. *)
Definition refuses_at (p text : string) (el : json) (r : Request) (c : nat)
    : (VendorExn + Response) * nat :=
  if decide (path r = p) then refuses text r c else answers el r c.

(** A connection whose answers list nothing. *)
Definition answers_nothing (r : Request) (c : nat) : (VendorExn + Response) * nat :=
  (inr (MkResponse 200 (JObj [("list", JArr [])])), S c).

Definition start : World nat := MkWorld 0%nat [].

(** An allocator with no address left. *)
Definition no_ip : M nat json := raise (Exception "No public unassigned IPs left").

Definition first_ip : M nat json := ret (JStr "9.9.9.9").

Definition pending : LoadBalancer :=
  MkLoadBalancer JNull (JStr "lb") UNKNOWN (JStr "9.9.9.9") (JNum 80) GoGridLBDriver.

Definition ready : LoadBalancer :=
  MkLoadBalancer (JNum 7) (JStr "lb") RUNNING (JStr "9.9.9.9") (JNum 80) GoGridLBDriver.

Definition m1 : Member := MkMember (JNum 1) (JStr "10.0.0.1") (JNum 80).
Definition m2 : Member := MkMember (JNum 2) (JStr "10.0.0.2") (JNum 80).
Definition m3 : Member := MkMember (JNum 3) (JStr "10.0.0.2") (JNum 81).

End Fixture.

Import Fixture.

(** * Properties *)

(** ** The algorithm tables *)

Lemma reverse_dict_lookup `{Countable K, Countable V} (d : gmap K V) (k : K) (v : V) :
  NoDup (map_to_list d).*2 → d !! k = Some v → reverse_dict d !! v = Some k.
Proof.
  intros Hnodup Hkv. unfold reverse_dict.
  apply elem_of_list_to_map_1.
  - rewrite <- list_fmap_compose.
    erewrite list_fmap_ext; [exact Hnodup|]. intros i [k' v'] _. reflexivity.
  - apply list_elem_of_fmap. exists (k, v). split; [reflexivity|].
    apply elem_of_map_to_list. exact Hkv.
Qed.

Lemma forward_table_values_NoDup : NoDup (map_to_list _VALUE_TO_ALGORITHM_MAP).*2.
Proof. apply (bool_decide_unpack _). vm_compute. exact I. Qed.

(** C1: the forward table has no duplicate values, and for every neutral
    algorithm [A] in its range (the value stored under some token [v]) the
    reverse table maps [A] to a token that the forward table maps to [A]
    again; that token is [v] itself. *)
Theorem algorithm_tables_round_trip (A : Algorithm) (v : string) :
  _VALUE_TO_ALGORITHM_MAP !! v = Some A →
  NoDup (map_to_list _VALUE_TO_ALGORITHM_MAP).*2 ∧
  ∃ token, _ALGORITHM_TO_VALUE_MAP !! A = Some token ∧
           _VALUE_TO_ALGORITHM_MAP !! token = Some A ∧ token = v.
Proof.
  intros Hv. split; [exact forward_table_values_NoDup|].
  exists v. split; [|split; [exact Hv|reflexivity]].
  apply reverse_dict_lookup; [exact forward_table_values_NoDup|exact Hv].
Qed.

Lemma algorithm_tables_round_trip_witness :
  _VALUE_TO_ALGORITHM_MAP !! "round balancer" = Some ROUND_ROBIN ∧
  ∃ token, _ALGORITHM_TO_VALUE_MAP !! ROUND_ROBIN = Some token ∧
           _VALUE_TO_ALGORITHM_MAP !! token = Some ROUND_ROBIN ∧ token = "round balancer".
Proof.
  split; [reflexivity|].
  apply (algorithm_tables_round_trip ROUND_ROBIN "round balancer"). reflexivity.
Defined.

Section DriverFacts.

Context {Conn : Type}.
Variable transport : Request → Conn → (VendorExn + Response) * Conn.
Variable DEFAULT_ALGORITHM : Algorithm.
Variable _get_first_ip : M Conn json.

(** *** The log only grows, by one event per request or sleep *)

Lemma try_request_log (r : Request) (w : World Conn) :
  log (try_request transport r w).2 = log w ++ [EvRequest r].
Proof. unfold try_request. destruct (transport r (conn w)). reflexivity. Qed.

Lemma request_log (r : Request) (w : World Conn) :
  log (request transport r w).2 = log w ++ [EvRequest r].
Proof.
  unfold request. rewrite <- try_request_log.
  destruct (try_request transport r w) as [[err|resp] w']; reflexivity.
Qed.

Lemma list_balancers_log (w : World Conn) :
  log (list_balancers transport w).2 = log w ++ [EvRequest list_request].
Proof.
  unfold list_balancers, bind. rewrite <- request_log.
  destruct (request transport list_request w) as [[resp|e] w']; reflexivity.
Qed.

Lemma poll_round_log (w : World Conn) :
  log (poll_round transport w) = log w ++ [EvRequest list_request; EvSleep interval].
Proof.
  unfold poll_round, sleep. cbn. rewrite list_balancers_log, <- app_assoc. reflexivity.
Qed.

Lemma world_after_polls_S (k : nat) (w : World Conn) :
  world_after_polls transport (S k) w =
  world_after_polls transport k (poll_round transport w).
Proof. unfold world_after_polls. apply Nat.iter_succ_r. Qed.

Lemma world_after_polls_log (k : nat) (w : World Conn) :
  log (world_after_polls transport k w) =
  log w ++ mjoin (replicate k [EvRequest list_request; EvSleep interval]).
Proof.
  revert w. induction k as [|k IH]; intros w.
  - cbn. rewrite app_nil_r. reflexivity.
  - rewrite world_after_polls_S, IH, poll_round_log, <- app_assoc. reflexivity.
Qed.

(** *** The polling loop *)

Lemma poll_step (balancer : LoadBalancer) (waittime : Z) (w : World Conn) :
  poll transport balancer waittime w =
  if decide (waittime < timeout) then
    match list_balancers transport w with
    | (Err e, w1) => (Err e, w1)
    | (Ok balancers, w1) =>
        match find (resolved balancer) balancers with
        | Some i => (Ok i, w1)
        | None => poll transport balancer (waittime + interval) (sleep interval w1).2
        end
    end
  else (Err (Exception "Failed to get id"), w).
Proof.
  simp poll. destruct (decide (waittime < timeout)); simpl; [|reflexivity].
  destruct (list_balancers transport w) as [[balancers|e] w1]; simpl; [|reflexivity].
  destruct (find (resolved balancer) balancers); reflexivity.
Qed.


Lemma find_resolved_None (balancer : LoadBalancer) (balancers : list LoadBalancer) :
  (∀ i, i ∈ balancers → ¬ (lb_name i = lb_name balancer ∧ lb_id i ≠ JNull)) →
  find (resolved balancer) balancers = None.
Proof.
  intros Hnone. induction balancers as [|i balancers IH]; [reflexivity|].
  simpl. destruct (resolved balancer i) eqn:Hres.
  - exfalso. apply (Hnone i); [left|].
    unfold resolved in Hres. apply andb_prop in Hres as [Hname Hid].
    split; [exact (bool_decide_eq_true_1 _ Hname)|exact (bool_decide_eq_true_1 _ Hid)].
  - apply IH. intros j Hj. apply Hnone. right. exact Hj.
Qed.

(** [n] rounds remain when the loop is entered at [waittime] with
    [waittime + interval * (n - 1) < timeout <= waittime + interval * n]. *)
Lemma poll_unresolved (balancer : LoadBalancer) (n : nat) :
  ∀ (waittime : Z) (w : World Conn),
    timeout ≤ waittime + interval * Z.of_nat n →
    (n ≠ 0%nat → waittime + interval * (Z.of_nat n - 1) < timeout) →
    (∀ k, (k < n)%nat →
       ∃ balancers,
         (list_balancers transport (world_after_polls transport k w)).1 = Ok balancers ∧
         find (resolved balancer) balancers = None) →
    poll transport balancer waittime w =
    (Err (Exception "Failed to get id"), world_after_polls transport n w).
Proof.
  induction n as [|n IH]; intros waittime w Hup Hlow Hpolls; rewrite poll_step.
  - destruct (decide (waittime < timeout)) as [Hlt|_]; [lia|reflexivity].
  - destruct (decide (waittime < timeout)) as [_|Hge].
    2:{ specialize (Hlow ltac:(lia)). unfold interval in *. lia. }
    destruct (Hpolls 0%nat ltac:(lia)) as (balancers & Hlist & Hfind).
    cbn in Hlist.
    destruct (list_balancers transport w) as [r w1] eqn:Hw. cbn in Hlist. subst r.
    rewrite Hfind, world_after_polls_S.
    replace (sleep interval w1).2 with (poll_round transport w)
      by (unfold poll_round; rewrite Hw; reflexivity).
    apply IH.
    + lia.
    + intros _. specialize (Hlow ltac:(lia)). lia.
    + intros k Hk. rewrite <- world_after_polls_S. apply Hpolls. lia.
Qed.

Lemma list_calls_app (evs evs' : list Event) :
  list_calls (evs ++ evs') = (list_calls evs + list_calls evs')%nat.
Proof. unfold list_calls. rewrite filter_app, length_app. reflexivity. Qed.

Lemma list_calls_round :
  list_calls [EvRequest list_request; EvSleep interval] = 1%nat.
Proof. reflexivity. Qed.

Lemma list_calls_single : list_calls [EvRequest list_request] = 1%nat.
Proof. reflexivity. Qed.

(** Whatever the listings answer, the loop entered with at most [n] rounds
    to go returns, having called the listing endpoint at most [n] times. *)
Lemma poll_bounded (balancer : LoadBalancer) (n : nat) :
  ∀ (waittime : Z) (w : World Conn),
    timeout ≤ waittime + interval * Z.of_nat n →
    ∃ evs, log (poll transport balancer waittime w).2 = log w ++ evs ∧
           (list_calls evs ≤ n)%nat.
Proof.
  induction n as [|n IH]; intros waittime w Hup; rewrite poll_step.
  - destruct (decide (waittime < timeout)) as [Hlt|_]; [lia|].
    exists []. rewrite app_nil_r. split; [reflexivity|]. cbn. lia.
  - destruct (decide (waittime < timeout)) as [_|_].
    2:{ exists []. rewrite app_nil_r. split; [reflexivity|]. cbn. lia. }
    pose proof (list_balancers_log w) as Hlog.
    destruct (list_balancers transport w) as [[balancers|e] w1]; cbn in Hlog.
    2:{ exists [EvRequest list_request]. split; [exact Hlog|].
        rewrite list_calls_single. lia. }
    destruct (find (resolved balancer) balancers).
    { exists [EvRequest list_request]. split; [exact Hlog|].
      rewrite list_calls_single. lia. }
    destruct (IH (waittime + interval) (sleep interval w1).2 ltac:(lia))
      as (evs & Hevs & Hcount).
    exists ([EvRequest list_request; EvSleep interval] ++ evs). split.
    + rewrite Hevs. cbn. rewrite Hlog, <- !app_assoc. reflexivity.
    + rewrite list_calls_app, list_calls_round. lia.
Qed.

(** C6: when the balancer that [ex_create_balancer_nowait] returns has an
    identifier, [create_balancer] returns that balancer in the world the
    create request left: no listing and no sleep is added to the log. *)
Theorem create_balancer_returns_immediately
    (name port : json) (algorithm : option Algorithm) (members : list Member)
    (w w1 : World Conn) (balancer : LoadBalancer) :
  ex_create_balancer_nowait transport DEFAULT_ALGORITHM _get_first_ip
    name port algorithm members w = (Ok balancer, w1) →
  lb_id balancer ≠ JNull →
  create_balancer transport DEFAULT_ALGORITHM _get_first_ip
    name port algorithm members w = (Ok balancer, w1) ∧
  log (create_balancer transport DEFAULT_ALGORITHM _get_first_ip
         name port algorithm members w).2 = log w1.
Proof.
  intros Hcreate Hid.
  assert (Hrun : create_balancer transport DEFAULT_ALGORITHM _get_first_ip
                   name port algorithm members w = (Ok balancer, w1)).
  { unfold create_balancer, bind. rewrite Hcreate.
    rewrite bool_decide_eq_true_2 by exact Hid. reflexivity. }
  rewrite Hrun. split; reflexivity.
Qed.

(** C2: when the create response carries no identifier and every later
    listing returns balancers none of which has the created name together
    with an identifier, [create_balancer] raises the error of the timeout
    after exactly 40 = ceil(1200 / 30) listings, each followed by a sleep of
    30 seconds; and on any listings at all the loop returns after at most 40
    of them. *)
Theorem create_balancer_polls_40_times_then_fails
    (name port : json) (algorithm : option Algorithm) (members : list Member)
    (w w1 : World Conn) (balancer : LoadBalancer) :
  ex_create_balancer_nowait transport DEFAULT_ALGORITHM _get_first_ip
    name port algorithm members w = (Ok balancer, w1) →
  lb_id balancer = JNull →
  (∀ k, ∃ balancers,
     (list_balancers transport (world_after_polls transport k w1)).1 = Ok balancers ∧
     ∀ i, i ∈ balancers → ¬ (lb_name i = lb_name balancer ∧ lb_id i ≠ JNull)) →
  (∃ w' evs,
     create_balancer transport DEFAULT_ALGORITHM _get_first_ip
       name port algorithm members w = (Err (Exception "Failed to get id"), w') ∧
     log w' = log w1 ++ evs ∧
     evs = mjoin (replicate 40 [EvRequest list_request; EvSleep 30]) ∧
     list_calls evs = 40%nat ∧
     Z.of_nat (list_calls evs) = (timeout + interval - 1) `div` interval) ∧
  (∀ (b : LoadBalancer) (w0 : World Conn),
     ∃ evs, log (poll transport b 0 w0).2 = log w0 ++ evs ∧
            (list_calls evs ≤ 40)%nat).
Proof.
  intros Hcreate Hid Hpolls. split.
  - exists (world_after_polls transport 40 w1),
           (mjoin (replicate 40 [EvRequest list_request; EvSleep 30])).
    split; [|split; [|split; [reflexivity|split; reflexivity]]].
    + unfold create_balancer, bind. rewrite Hcreate.
      rewrite bool_decide_eq_false_2 by (intros Hne; exact (Hne Hid)).
      apply poll_unresolved.
      * unfold timeout, interval. lia.
      * intros _. unfold timeout, interval. lia.
      * intros k _. destruct (Hpolls k) as (balancers & Hlist & Hnone).
        exists balancers. split; [exact Hlist|].
        apply find_resolved_None. exact Hnone.
    + apply world_after_polls_log.
  - intros b w0. apply poll_bounded. unfold timeout, interval. lia.
Qed.


(** *** Error translation *)

Lemma str_in_cons (a : ascii) (needle hay : string) :
  str_in needle hay = true → str_in needle (String a hay) = true.
Proof. intros H. simpl. rewrite H. apply orb_true_r. Qed.

(** C3, on the code: when the edit request raises an exception whose text
    does not contain "Update already pending", [_update_balancer] reaches the
    [raise] after the handler, where [err] is no longer bound: it raises
    [UnboundLocalError] for [err], and no [LibcloudError] carrying the
    original message. *)
Theorem update_balancer_loses_other_errors
    (params : gmap string Param) (w : World Conn) (err : VendorExn) (c : Conn) :
  transport (MkRequest "/api/grid/loadbalancer/edit" POST params) (conn w) = (inl err, c) →
  str_in "Update already pending" (exn_text err) = false →
  (_update_balancer transport params w).1 = Err (UnboundLocalError "err") ∧
  ∀ value, (_update_balancer transport params w).1 ≠ Err (LibcloudError value).
Proof.
  intros Hraise Hother.
  assert (Hrun : (_update_balancer transport params w).1 = Err (UnboundLocalError "err")).
  { unfold _update_balancer, try_request. rewrite Hraise. cbn. rewrite Hother.
    reflexivity. }
  split; [exact Hrun|]. intros value. rewrite Hrun. discriminate.
Qed.

(** C5: [destroy_balancer] raises [LibcloudLBImmutableError] exactly when the
    delete request raises an exception whose text contains
    "Update request for LoadBalancer"; any other exception of the request
    comes out as it was raised; and when the request returns, the result is
    [True] exactly when the status is 200. *)
Theorem destroy_balancer_outcomes (balancer : LoadBalancer) (w : World Conn) :
  let r := MkRequest "/api/grid/loadbalancer/delete" POST
             {["id" := PVal (lb_id balancer)]} in
  ((∃ value, (destroy_balancer transport balancer w).1
               = Err (LibcloudLBImmutableError value)) ↔
   (∃ err c, transport r (conn w) = (inl err, c) ∧
             str_in "Update request for LoadBalancer" (exn_text err) = true)) ∧
  (∀ err c, transport r (conn w) = (inl err, c) →
            str_in "Update request for LoadBalancer" (exn_text err) = false →
            (destroy_balancer transport balancer w).1 = Err (TransportError err)) ∧
  (∀ resp c, transport r (conn w) = (inr resp, c) →
             ∃ b : bool, (destroy_balancer transport balancer w).1 = Ok b ∧
                         (b = true ↔ status resp = 200)).
Proof.
  intros r. unfold destroy_balancer, try_request. fold r.
  destruct (transport r (conn w)) as [[err|resp] c] eqn:Hout; cbn.
  - destruct (str_in "Update request for LoadBalancer" (exn_text err)) eqn:Hin; cbn.
    + split; [split|split].
      * intros _. exists err, c. split; [reflexivity|exact Hin].
      * intros _. eexists. reflexivity.
      * intros err' c' Heq Hno. injection Heq as He Hc. subst err' c'. congruence.
      * intros resp c' Heq. discriminate Heq.
    + split; [split|split].
      * intros [value Hv]. discriminate Hv.
      * intros (err' & c' & Heq & Hyes). injection Heq as He Hc. subst err' c'. congruence.
      * intros err' c' Heq _. injection Heq as He Hc. subst err' c'. reflexivity.
      * intros resp c' Heq. discriminate Heq.
  - split; [split|split].
    + intros [value Hv]. discriminate Hv.
    + intros (err & c' & Heq & _). discriminate Heq.
    + intros err c' Heq. discriminate Heq.
    + intros resp' c' Heq. injection Heq as Hr Hc. subst resp' c'.
      exists (bool_decide (status resp = 200)). split; [reflexivity|].
      apply bool_decide_eq_true.
Qed.

(** *** Lookup *)

(** C9: [get_balancer] called with neither [ex_balancer_name] nor
    [balancer_id] raises [KeyError] and sends nothing; with a name it sends
    the get request with the name alone, whatever identifier comes with it;
    with an identifier and no name it sends the identifier; and when the
    request returns a body that parses, the result is the first balancer
    parsed from it. *)
Theorem get_balancer_lookup (kwargs : gmap string json) (w : World Conn) :
  (kwargs !! "ex_balancer_name" = None → kwargs !! "balancer_id" = None →
   get_balancer transport kwargs w = (Err (KeyError (JStr "balancer_id")), w)) ∧
  (∀ params : gmap string Param,
     (∃ name, kwargs !! "ex_balancer_name" = Some name ∧
              params = {["name" := PVal name]}) ∨
     (kwargs !! "ex_balancer_name" = None ∧
      ∃ balancer_id, kwargs !! "balancer_id" = Some balancer_id ∧
                     params = {["id" := PVal balancer_id]}) →
     let r := MkRequest "/api/grid/loadbalancer/get" GET params in
     log (get_balancer transport kwargs w).2 = log w ++ [EvRequest r] ∧
     ∀ resp c balancer rest,
       transport r (conn w) = (inr resp, c) →
       _to_balancers (object resp) = Ok (balancer :: rest) →
       (get_balancer transport kwargs w).1 = Ok balancer).
Proof.
  split.
  - intros Hname Hid. unfold get_balancer, bind. rewrite Hname, Hid. reflexivity.
  - intros params Hparams r.
    assert (Hrun : get_balancer transport kwargs w =
                   bind (request transport r)
                     (λ resp, bind (lift (_to_balancers (object resp)))
                                (λ balancers, lift (first balancers))) w).
    { unfold get_balancer. unfold bind at 1.
      destruct Hparams as [(name & Hname & ->)|(Hname & balancer_id & Hid & ->)].
      - rewrite Hname. reflexivity.
      - rewrite Hname, Hid. reflexivity. }
    rewrite Hrun. clear Hrun. split.
    + unfold bind. rewrite <- (request_log r w).
      destruct (request transport r w) as [[resp|e] w']; [|reflexivity].
      unfold lift. destruct (_to_balancers (object resp)); reflexivity.
    + intros resp c balancer rest Hresp Hparse.
      unfold bind, request, try_request, lift. rewrite Hresp. cbn.
      rewrite Hparse. reflexivity.
Qed.


(** *** Parsing *)

Lemma state_lookup (s : string) :
  default UNKNOWN (LB_STATE_MAP !! s) = if decide (s = "On") then RUNNING else UNKNOWN.
Proof.
  unfold LB_STATE_MAP. destruct (decide (s = "On")) as [->|Hon]; [reflexivity|].
  rewrite lookup_insert_ne by congruence.
  destruct (decide (s = "Unknown")) as [->|Hun]; [reflexivity|].
  rewrite lookup_insert_ne by congruence. reflexivity.
Qed.

Lemma mapM_first_failure {A B} (f : A → Result B) (pre rest : list A) (x : A) (e : Exn) :
  Forall (λ y, ∃ b, f y = Ok b) pre → f x = Err e →
  mapM f (pre ++ x :: rest) = Err e.
Proof.
  intros Hpre Hx. induction Hpre as [|y pre [b Hy] _ IH]; cbn.
  - rewrite Hx. reflexivity.
  - rewrite Hy. cbn. rewrite IH. reflexivity.
Qed.

Lemma to_balancers_first_failure (body : json) (pre rest : list json) (el : json) (e : Exn) :
  getitem body "list" = Ok (JArr (pre ++ el :: rest)) →
  Forall (λ y, ∃ b, _to_balancer y = Ok b) pre →
  _to_balancer el = Err e →
  _to_balancers body = Err e.
Proof.
  intros Hlist Hpre Hel. unfold _to_balancers. rewrite Hlist. cbn.
  apply mapM_first_failure; assumption.
Qed.

Lemma get_balancer_sends (kwargs : gmap string json) (params : gmap string Param)
    (w : World Conn) :
  (∃ name, kwargs !! "ex_balancer_name" = Some name ∧
           params = {["name" := PVal name]}) ∨
  (kwargs !! "ex_balancer_name" = None ∧
   ∃ balancer_id, kwargs !! "balancer_id" = Some balancer_id ∧
                  params = {["id" := PVal balancer_id]}) →
  get_balancer transport kwargs w =
  bind (request transport (MkRequest "/api/grid/loadbalancer/get" GET params))
    (λ resp, bind (lift (_to_balancers (object resp)))
               (λ balancers, lift (first balancers))) w.
Proof.
  intros Hparams. unfold get_balancer. unfold bind at 1.
  destruct Hparams as [(name & Hname & ->)|(Hname & balancer_id & Hid & ->)].
  - rewrite Hname. reflexivity.
  - rewrite Hname, Hid. reflexivity.
Qed.

(** C10: on a list element [el] that is a dict, parsing does not need the
    key "id" but needs the others.  Without "id", and with the name, the
    state name (a string), the address and the port in place, [_to_balancer]
    returns a balancer whose identifier is [None] and whose state is
    [RUNNING] for the state name "On" and [UNKNOWN] for any other; without
    "name", without "state", or (the state being in place) without
    "virtualip", it raises [KeyError]; and that error is what
    [list_balancers] and [get_balancer] raise on a body that lists [el]
    after elements that parse. *)
Theorem to_balancer_needs_every_key_but_id (o : list (string * json)) :
  let el := JObj o in
  (∀ name st s vip vip_ip ip port,
     assoc "id" o = None →
     assoc "name" o = Some name →
     assoc "state" o = Some st → getitem st "name" = Ok (JStr s) →
     assoc "virtualip" o = Some vip →
     getitem vip "ip" = Ok vip_ip → getitem vip_ip "ip" = Ok ip →
     getitem vip "port" = Ok port →
     _to_balancer el =
     Ok (MkLoadBalancer JNull name (if decide (s = "On") then RUNNING else UNKNOWN)
           ip port GoGridLBDriver)) ∧
  (assoc "name" o = None → _to_balancer el = Err (KeyError (JStr "name"))) ∧
  (is_Some (assoc "name" o) → assoc "state" o = None →
   _to_balancer el = Err (KeyError (JStr "state"))) ∧
  (∀ st state_name state,
     is_Some (assoc "name" o) →
     assoc "state" o = Some st → getitem st "name" = Ok state_name →
     state_of state_name = Ok state →
     assoc "virtualip" o = None →
     _to_balancer el = Err (KeyError (JStr "virtualip"))) ∧
  (∀ e pre rest resp c (w : World Conn),
     _to_balancer el = Err e →
     Forall (λ y, ∃ b, _to_balancer y = Ok b) pre →
     getitem (object resp) "list" = Ok (JArr (pre ++ el :: rest)) →
     (transport list_request (conn w) = (inr resp, c) →
      (list_balancers transport w).1 = Err e) ∧
     (∀ kwargs params,
        (∃ name, kwargs !! "ex_balancer_name" = Some name ∧
                 params = {["name" := PVal name]}) ∨
        (kwargs !! "ex_balancer_name" = None ∧
         ∃ balancer_id, kwargs !! "balancer_id" = Some balancer_id ∧
                        params = {["id" := PVal balancer_id]}) →
        transport (MkRequest "/api/grid/loadbalancer/get" GET params) (conn w)
          = (inr resp, c) →
        (get_balancer transport kwargs w).1 = Err e)).
Proof.
  intros el. subst el. repeat split.
  - intros name st s vip vip_ip ip port Hid Hname Hst Hsn Hvip Hvi Hip Hport.
    unfold _to_balancer. cbn. rewrite Hid, Hname, Hst. cbn. rewrite Hsn. cbn.
    rewrite Hvip. cbn. rewrite Hvi. cbn. rewrite Hip. cbn. rewrite Hport. cbn.
    rewrite state_lookup. reflexivity.
  - intros Hname. unfold _to_balancer. cbn. rewrite Hname. reflexivity.
  - intros [name Hname] Hst. unfold _to_balancer. cbn. rewrite Hname, Hst. reflexivity.
  - intros st state_name state [name Hname] Hst Hsn Hstate Hvip.
    unfold _to_balancer. cbn. rewrite Hname, Hst. cbn. rewrite Hsn. cbn.
    rewrite Hstate. cbn. rewrite Hvip. reflexivity.
  - intros Hresp. unfold list_balancers, bind, request, try_request.
    rewrite Hresp. cbn.
    erewrite to_balancers_first_failure by eassumption. reflexivity.
  - intros kwargs params Hparams Hresp.
    rewrite (get_balancer_sends kwargs params w Hparams).
    unfold bind, request, try_request. rewrite Hresp. cbn.
    erewrite to_balancers_first_failure by eassumption. reflexivity.
Qed.


(** *** Parameter keys *)

Lemma string_length_app (s t : string) :
  String.length (s +:+ t) = (String.length s + String.length t)%nat.
Proof.
  induction s as [|a s IH]; [reflexivity|].
  change (String a s +:+ t) with (String a (s +:+ t)). cbn. rewrite IH. reflexivity.
Qed.

Lemma string_app_inj_r (t s1 s2 : string) : s1 +:+ t = s2 +:+ t → s1 = s2.
Proof.
  revert s2. induction s1 as [|a s1 IH]; intros [|b s2] H.
  - reflexivity.
  - apply (f_equal String.length) in H. rewrite !string_length_app in H. cbn in H. lia.
  - apply (f_equal String.length) in H. rewrite !string_length_app in H. cbn in H. lia.
  - change (String a (s1 +:+ t) = String b (s2 +:+ t)) in H.
    injection H as -> H. f_equal. apply IH. exact H.
Qed.

Fixpoint last_ascii (s : string) : option ascii :=
  match s with
  | "" => None
  | String a s' => match s' with "" => Some a | String _ _ => last_ascii s' end
  end.

Lemma last_ascii_app (s t : string) : t ≠ "" → last_ascii (s +:+ t) = last_ascii t.
Proof.
  intros Ht. induction s as [|a s IH]; [reflexivity|].
  change (String a s +:+ t) with (String a (s +:+ t)).
  destruct (s +:+ t) as [|b r] eqn:E.
  - apply (f_equal String.length) in E. rewrite string_length_app in E.
    destruct t; [congruence|]. cbn in E. lia.
  - rewrite <- IH. reflexivity.
Qed.

Lemma ip_key_inj (i j : nat) : ip_key i = ip_key j → i = j.
Proof.
  unfold ip_key. intros H. apply (inj (String.app _)) in H.
  apply string_app_inj_r in H. exact (inj pretty _ _ H).
Qed.

Lemma port_key_inj (i j : nat) : port_key i = port_key j → i = j.
Proof.
  unfold port_key. intros H. apply (inj (String.app _)) in H.
  apply string_app_inj_r in H. exact (inj pretty _ _ H).
Qed.

Lemma ip_key_ne_port_key (i j : nat) : ip_key i ≠ port_key j.
Proof.
  unfold ip_key, port_key. intros H. apply (inj (String.app _)) in H.
  apply (f_equal last_ascii) in H.
  rewrite !last_ascii_app in H by discriminate. discriminate H.
Qed.

Lemma ip_key_head (i : nat) : ∃ s, ip_key i = String "r"%char s.
Proof. eexists. reflexivity. Qed.

Lemma port_key_head (i : nat) : ∃ s, port_key i = String "r"%char s.
Proof. eexists. reflexivity. Qed.

(** *** What [_members_to_params] holds *)

Lemma members_to_params_from_ip (members : list Member) :
  ∀ (i : nat) (params : gmap string Param) (j : nat),
    _members_to_params_from i members params !! ip_key j =
    match (if decide (i ≤ j)%nat then members !! (j - i)%nat else None) with
    | Some n => Some (PVal (m_ip n))
    | None => params !! ip_key j
    end.
Proof.
  induction members as [|a rest IH]; intros i params j; cbn [_members_to_params_from].
  - destruct (decide (i ≤ j)%nat); reflexivity.
  - rewrite IH. destruct (decide (S i ≤ j)%nat) as [Hlt|Hge].
    + rewrite decide_True by lia.
      replace (j - i)%nat with (S (j - S i)) by lia. cbn.
      destruct (rest !! (j - S i)%nat); [reflexivity|].
      rewrite lookup_insert_ne by (apply not_eq_sym, ip_key_ne_port_key).
      rewrite lookup_insert_ne by (intros E; apply ip_key_inj in E; lia). reflexivity.
    + rewrite lookup_insert_ne by (apply not_eq_sym, ip_key_ne_port_key).
      destruct (decide (i ≤ j)%nat) as [Hle|Hgt].
      * assert (j = i) as -> by lia. rewrite Nat.sub_diag. cbn.
        apply lookup_insert_eq.
      * rewrite lookup_insert_ne by (intros E; apply ip_key_inj in E; lia). reflexivity.
Qed.

Lemma members_to_params_from_port (members : list Member) :
  ∀ (i : nat) (params : gmap string Param) (j : nat),
    _members_to_params_from i members params !! port_key j =
    match (if decide (i ≤ j)%nat then members !! (j - i)%nat else None) with
    | Some n => Some (PVal (m_port n))
    | None => params !! port_key j
    end.
Proof.
  induction members as [|a rest IH]; intros i params j; cbn [_members_to_params_from].
  - destruct (decide (i ≤ j)%nat); reflexivity.
  - rewrite IH. destruct (decide (S i ≤ j)%nat) as [Hlt|Hge].
    + rewrite decide_True by lia.
      replace (j - i)%nat with (S (j - S i)) by lia. cbn.
      destruct (rest !! (j - S i)%nat); [reflexivity|].
      rewrite lookup_insert_ne by (intros E; apply port_key_inj in E; lia).
      rewrite lookup_insert_ne by apply ip_key_ne_port_key. reflexivity.
    + destruct (decide (i ≤ j)%nat) as [Hle|Hgt].
      * assert (j = i) as -> by lia. rewrite Nat.sub_diag. cbn.
        apply lookup_insert_eq.
      * rewrite lookup_insert_ne by (intros E; apply port_key_inj in E; lia).
        rewrite lookup_insert_ne by apply ip_key_ne_port_key. reflexivity.
Qed.

Lemma members_to_params_from_other (members : list Member) :
  ∀ (i : nat) (params : gmap string Param) (k : string),
    (∀ j, k ≠ ip_key j) → (∀ j, k ≠ port_key j) →
    _members_to_params_from i members params !! k = params !! k.
Proof.
  induction members as [|a rest IH]; intros i params k Hip Hport;
    cbn [_members_to_params_from]; [reflexivity|].
  rewrite IH by assumption.
  rewrite lookup_insert_ne by (apply not_eq_sym, Hport).
  rewrite lookup_insert_ne by (apply not_eq_sym, Hip). reflexivity.
Qed.

Lemma members_to_params_ip (members : list Member) (i : nat) :
  _members_to_params members !! ip_key i = PVal ∘ m_ip <$> members !! i.
Proof.
  unfold _members_to_params. rewrite members_to_params_from_ip.
  rewrite decide_True by lia. rewrite Nat.sub_0_r.
  destruct (members !! i); [reflexivity|apply lookup_empty].
Qed.

Lemma members_to_params_port (members : list Member) (i : nat) :
  _members_to_params members !! port_key i = PVal ∘ m_port <$> members !! i.
Proof.
  unfold _members_to_params. rewrite members_to_params_from_port.
  rewrite decide_True by lia. rewrite Nat.sub_0_r.
  destruct (members !! i); [reflexivity|apply lookup_empty].
Qed.

Lemma members_to_params_other (members : list Member) (k : string) :
  (∀ j, k ≠ ip_key j) → (∀ j, k ≠ port_key j) →
  _members_to_params members !! k = None.
Proof.
  intros Hip Hport. unfold _members_to_params.
  rewrite members_to_params_from_other by assumption. apply lookup_empty.
Qed.

Lemma dict_update_other (params : gmap string Param) (members : list Member) (k : string) :
  (∀ j, k ≠ ip_key j) → (∀ j, k ≠ port_key j) →
  dict_update params (_members_to_params members) !! k = params !! k.
Proof.
  intros Hip Hport. unfold dict_update.
  apply lookup_union_r. apply members_to_params_other; assumption.
Qed.

Lemma dict_update_ip (params : gmap string Param) (members : list Member) (i : nat) :
  params !! ip_key i = None →
  dict_update params (_members_to_params members) !! ip_key i
  = PVal ∘ m_ip <$> members !! i.
Proof.
  intros Hnone. unfold dict_update. rewrite lookup_union, Hnone, members_to_params_ip.
  destruct (members !! i); reflexivity.
Qed.

Lemma dict_update_port (params : gmap string Param) (members : list Member) (i : nat) :
  params !! port_key i = None →
  dict_update params (_members_to_params members) !! port_key i
  = PVal ∘ m_port <$> members !! i.
Proof.
  intros Hnone. unfold dict_update. rewrite lookup_union, Hnone, members_to_params_port.
  destruct (members !! i); reflexivity.
Qed.

Lemma not_key_of_head (k : string) :
  (∀ s, k ≠ String "r"%char s) → (∀ j, k ≠ ip_key j) ∧ (∀ j, k ≠ port_key j).
Proof.
  intros Hk. split; intros j E.
  - destruct (ip_key_head j) as [s Hs]. apply (Hk s). congruence.
  - destruct (port_key_head j) as [s Hs]. apply (Hk s). congruence.
Qed.


(** *** Members *)

Lemma update_balancer_log (params : gmap string Param) (w : World Conn) :
  log (_update_balancer transport params w).2 =
  log w ++ [EvRequest (MkRequest "/api/grid/loadbalancer/edit" POST params)].
Proof.
  unfold _update_balancer. rewrite <- try_request_log.
  destruct (try_request transport _ w) as [[err|resp] w']; [|reflexivity].
  destruct (str_in "Update already pending" (exn_text err)); reflexivity.
Qed.

Lemma update_balancer_returns (params : gmap string Param) (w : World Conn)
    (resp : Response) (c : Conn) :
  transport (MkRequest "/api/grid/loadbalancer/edit" POST params) (conn w) = (inr resp, c) →
  (_update_balancer transport params w).1 = Ok resp.
Proof.
  intros Hresp. unfold _update_balancer, try_request. rewrite Hresp. reflexivity.
Qed.

(** C8: with [members] the list that [balancer_detach_member] fetched, the
    edit request it sends carries the balancer's identifier and, for the
    members whose identifier differs from the detached member's, kept in
    their order, the parameters [realiplist.i.ip] and [realiplist.i.port] of
    the [i]-th of them, counted from 0, and nothing else; when the request
    returns, the result is [True] exactly when the status is 200. *)
Theorem balancer_detach_member_resubmits_the_rest
    (balancer : LoadBalancer) (member : Member) (members : list Member)
    (w w0 : World Conn) :
  balancer_list_members transport balancer w = (Ok members, w0) →
  let remaining_members := filter (λ n, m_id n ≠ m_id member) members in
  ∃ params : gmap string Param,
    let r := MkRequest "/api/grid/loadbalancer/edit" POST params in
    log (balancer_detach_member transport balancer member w).2
      = log w0 ++ [EvRequest r] ∧
    params !! "id" = Some (PVal (lb_id balancer)) ∧
    (∀ i, params !! ("realiplist." +:+ pretty i +:+ ".ip")
          = PVal ∘ m_ip <$> remaining_members !! i) ∧
    (∀ i, params !! ("realiplist." +:+ pretty i +:+ ".port")
          = PVal ∘ m_port <$> remaining_members !! i) ∧
    (∀ k, k ≠ "id" → (∀ i, k ≠ ip_key i) → (∀ i, k ≠ port_key i) →
          params !! k = None) ∧
    (∀ resp c, transport r (conn w0) = (inr resp, c) →
               ∃ b : bool,
                 (balancer_detach_member transport balancer member w).1 = Ok b ∧
                 (b = true ↔ status resp = 200)).
Proof.
  intros Hfetch remaining_members.
  set (base := ({["id" := PVal (lb_id balancer)]} : gmap string Param)).
  exists (dict_update base (_members_to_params remaining_members)).
  assert (Hrun : balancer_detach_member transport balancer member w =
                 bind (_update_balancer transport
                         (dict_update base (_members_to_params remaining_members)))
                   (λ resp, ret (bool_decide (status resp = 200))) w0).
  { unfold balancer_detach_member. unfold bind at 1. rewrite Hfetch. reflexivity. }
  cbv zeta. rewrite Hrun. clear Hrun.
  destruct (not_key_of_head "id") as [Hid_ip Hid_port]; [discriminate|].
  repeat split.
  - unfold bind. rewrite <- update_balancer_log.
    destruct (_update_balancer transport _ w0) as [[resp|e] w']; reflexivity.
  - rewrite dict_update_other by assumption. apply lookup_singleton_eq.
  - intros i. apply dict_update_ip. apply lookup_singleton_ne, Hid_ip.
  - intros i. apply dict_update_port. apply lookup_singleton_ne, Hid_port.
  - intros k Hk Hip Hport. rewrite dict_update_other by assumption.
    apply lookup_singleton_ne. apply not_eq_sym, Hk.
  - intros resp c Hresp. exists (bool_decide (status resp = 200)).
    split; [|apply bool_decide_eq_true].
    unfold bind. pose proof (update_balancer_returns _ _ _ _ Hresp) as Hok.
    destruct (_update_balancer transport _ w0) as [r' w']. cbn in Hok. subst r'.
    reflexivity.
Qed.

Lemma filter_first_match {A} (P : A → Prop) `{∀ x, Decision (P x)}
    (pre post : list A) (m : A) :
  (∀ x, x ∈ pre → ¬ P x) → P m →
  first (filter P (pre ++ m :: post)) = Ok m.
Proof.
  intros Hpre Hm. induction pre as [|x pre IH]; cbn [app].
  - rewrite filter_cons_True by exact Hm. reflexivity.
  - rewrite filter_cons_False by (apply Hpre; left). apply IH.
    intros y Hy. apply Hpre. right. exact Hy.
Qed.

Lemma filter_no_match {A} (P : A → Prop) `{∀ x, Decision (P x)} (l : list A) :
  (∀ x, x ∈ l → ¬ P x) → first (filter P l) = Err IndexError.
Proof.
  intros Hl. induction l as [|x l IH]; [reflexivity|].
  rewrite filter_cons_False by (apply Hl; left). apply IH.
  intros y Hy. apply Hl. right. exact Hy.
Qed.

(** C7: with [ms] the members parsed from the response of the edit request,
    [balancer_attach_member] returns the member of [ms] whose address equals
    the attached member's and that no member with that address precedes; when
    no member of [ms] has that address it raises [IndexError]. *)
Theorem balancer_attach_member_returns_first_match
    (balancer : LoadBalancer) (member : Member) (members : list Member)
    (w w0 w1 : World Conn) (resp : Response) (l : json) (ms : list Member) :
  balancer_list_members transport balancer w = (Ok members, w0) →
  _update_balancer transport
    (dict_update {["id" := PVal (lb_id balancer)]}
       (_members_to_params (members ++ [member]))) w0 = (Ok resp, w1) →
  realiplist_of (object resp) = Ok l →
  _to_members l = Ok ms →
  (∀ pre m post,
     ms = pre ++ m :: post → m_ip m = m_ip member →
     (∀ x, x ∈ pre → m_ip x ≠ m_ip member) →
     balancer_attach_member transport balancer member w = (Ok m, w1)) ∧
  ((∀ x, x ∈ ms → m_ip x ≠ m_ip member) →
   balancer_attach_member transport balancer member w = (Err IndexError, w1)).
Proof.
  intros Hfetch Hedit Hlist Hparse.
  assert (Hrun : balancer_attach_member transport balancer member w =
                 (first (filter (λ m, m_ip m = m_ip member) ms), w1)).
  { unfold balancer_attach_member. unfold bind at 1. rewrite Hfetch. cbv zeta.
    unfold bind at 1. rewrite Hedit.
    unfold bind, lift. rewrite Hlist, Hparse. reflexivity. }
  rewrite Hrun. split.
  - intros pre m post -> Hm Hpre. f_equal.
    apply (filter_first_match (λ m, m_ip m = m_ip member)); assumption.
  - intros Hnone. f_equal.
    apply (filter_no_match (λ m, m_ip m = m_ip member)). exact Hnone.
Qed.

(** *** Creation *)

(** C4, on the code: the create request carries the name, the port and the
    allocated address; for a requested algorithm its "loadbalancer.type" is
    the token the reverse table holds for it; for no algorithm it is the
    neutral constant [DEFAULT_ALGORITHM] itself, not a token. *)
Theorem ex_create_balancer_nowait_type_parameter
    (name port : json) (algorithm : option Algorithm) (members : list Member)
    (w w1 : World Conn) (ip : json) :
  _get_first_ip w = (Ok ip, w1) →
  ∃ r,
    log (ex_create_balancer_nowait transport DEFAULT_ALGORITHM _get_first_ip
           name port algorithm members w).2 = log w1 ++ [EvRequest r] ∧
    path r = "/api/grid/loadbalancer/add" ∧
    match algorithm with
    | Some a =>
        ∃ token, _ALGORITHM_TO_VALUE_MAP !! a = Some token ∧
                 params r !! "loadbalancer.type" = Some (PVal (JStr token))
    | None =>
        params r !! "loadbalancer.type" = Some (PAlgorithm DEFAULT_ALGORITHM) ∧
        ∀ token, params r !! "loadbalancer.type" ≠ Some (PVal (JStr token))
    end.
Proof.
  intros Hip.
  destruct (not_key_of_head "loadbalancer.type") as [Hty_ip Hty_port]; [discriminate|].
  assert (Hlog : ∀ (p : gmap string Param),
            log (bind (request transport (MkRequest "/api/grid/loadbalancer/add" GET p))
                   (λ resp, bind (lift (_to_balancers (object resp)))
                              (λ balancers, lift (first balancers))) w1).2
            = log w1 ++ [EvRequest (MkRequest "/api/grid/loadbalancer/add" GET p)]).
  { intros p. unfold bind. rewrite <- request_log.
    destruct (request transport _ w1) as [[resp|e] w']; [|reflexivity].
    unfold lift. destruct (_to_balancers (object resp)); reflexivity. }
  pose (mk := λ ty : Param,
          dict_update
            (<["virtualip.port" := PVal port]>
               (<["virtualip.ip" := PVal ip]>
                  (<["loadbalancer.type" := ty]>
                     (<["name" := PVal name]> (∅ : gmap string Param)))))
            (_members_to_params members)).
  assert (Hty : ∀ ty, mk ty !! "loadbalancer.type" = Some ty).
  { intros ty. unfold mk. rewrite dict_update_other by assumption.
    rewrite lookup_insert_ne by discriminate.
    rewrite lookup_insert_ne by discriminate.
    apply lookup_insert_eq. }
  destruct algorithm as [a|].
  - assert (Htok : ∃ token, _ALGORITHM_TO_VALUE_MAP !! a = Some token).
    { destruct a; eexists; reflexivity. }
    destruct Htok as [token Htok].
    exists (MkRequest "/api/grid/loadbalancer/add" GET (mk (PVal (JStr token)))).
    split; [|split; [reflexivity|]].
    + unfold ex_create_balancer_nowait, _algorithm_to_value. rewrite Htok.
      unfold bind at 1. cbn. unfold bind at 1. rewrite Hip. apply Hlog.
    + exists token. split; [exact Htok|]. apply Hty.
  - exists (MkRequest "/api/grid/loadbalancer/add" GET (mk (PAlgorithm DEFAULT_ALGORITHM))).
    split; [|split; [reflexivity|]].
    + unfold ex_create_balancer_nowait.
      unfold bind at 1. cbn. unfold bind at 1. rewrite Hip. apply Hlog.
    + cbn [params]. rewrite Hty. split; [reflexivity|]. intros token. discriminate.
Qed.


(** ** Further properties of the driver *)

(** *** Polling that ends before the timeout *)

Lemma find_resolved_first (balancer i : LoadBalancer) (pre post : list LoadBalancer) :
  (∀ x, x ∈ pre → ¬ (lb_name x = lb_name balancer ∧ lb_id x ≠ JNull)) →
  lb_name i = lb_name balancer → lb_id i ≠ JNull →
  find (resolved balancer) (pre ++ i :: post) = Some i.
Proof.
  intros Hpre Hname Hid. induction pre as [|x pre IH]; cbn [app find].
  - unfold resolved. rewrite !bool_decide_eq_true_2 by assumption. reflexivity.
  - destruct (resolved balancer x) eqn:Hres.
    + exfalso. apply (Hpre x); [left|].
      unfold resolved in Hres. apply andb_prop in Hres as [Hn Hi].
      split; [exact (bool_decide_eq_true_1 _ Hn)|exact (bool_decide_eq_true_1 _ Hi)].
    + apply IH. intros y Hy. apply Hpre. right. exact Hy.
Qed.

(** [k] rounds that find nothing leave the loop where it would be had it
    been entered [k] intervals later in the world those rounds produce. *)
Lemma poll_skip (balancer : LoadBalancer) (k : nat) :
  ∀ (waittime : Z) (w : World Conn),
    (k ≠ 0%nat → waittime + interval * (Z.of_nat k - 1) < timeout) →
    (∀ j, (j < k)%nat →
       ∃ balancers,
         (list_balancers transport (world_after_polls transport j w)).1 = Ok balancers ∧
         find (resolved balancer) balancers = None) →
    poll transport balancer waittime w =
    poll transport balancer (waittime + interval * Z.of_nat k)
      (world_after_polls transport k w).
Proof.
  induction k as [|k IH]; intros waittime w Hlow Hpolls.
  - cbn. rewrite Z.add_0_r. reflexivity.
  - rewrite (poll_step balancer waittime w).
    specialize (Hlow ltac:(lia)).
    rewrite decide_True by (unfold interval in *; lia).
    destruct (Hpolls 0%nat ltac:(lia)) as (balancers & Hlist & Hfind). cbn in Hlist.
    destruct (list_balancers transport w) as [r w1] eqn:Hw. cbn in Hlist. subst r.
    rewrite Hfind, world_after_polls_S.
    replace (sleep interval w1).2 with (poll_round transport w)
      by (unfold poll_round; rewrite Hw; reflexivity).
    rewrite (IH (waittime + interval) (poll_round transport w)).
    + f_equal. lia.
    + intros _. lia.
    + intros j Hj. rewrite <- world_after_polls_S. apply Hpolls. lia.
Qed.

Lemma unresolved_rounds (balancer : LoadBalancer) (k : nat) (w : World Conn) :
  (∀ j, (j < k)%nat →
     ∃ balancers,
       (list_balancers transport (world_after_polls transport j w)).1 = Ok balancers ∧
       ∀ x, x ∈ balancers → ¬ (lb_name x = lb_name balancer ∧ lb_id x ≠ JNull)) →
  ∀ j, (j < k)%nat →
    ∃ balancers,
      (list_balancers transport (world_after_polls transport j w)).1 = Ok balancers ∧
      find (resolved balancer) balancers = None.
Proof.
  intros Hpolls j Hj. destruct (Hpolls j Hj) as (balancers & Hlist & Hnone).
  exists balancers. split; [exact Hlist|]. apply find_resolved_None. exact Hnone.
Qed.

(** X1: when the create response carries no identifier, the first [k < 40]
    listings hold no balancer with the created name and an identifier, and
    the next listing does, [create_balancer] returns the first such balancer
    of that listing, after [k + 1] list requests and [k] sleeps. *)
Theorem create_balancer_returns_first_resolved
    (name port : json) (algorithm : option Algorithm) (members : list Member)
    (w w1 wk : World Conn) (balancer i : LoadBalancer) (k : nat)
    (pre post : list LoadBalancer) :
  ex_create_balancer_nowait transport DEFAULT_ALGORITHM _get_first_ip
    name port algorithm members w = (Ok balancer, w1) →
  lb_id balancer = JNull →
  (k < 40)%nat →
  (∀ j, (j < k)%nat →
     ∃ balancers,
       (list_balancers transport (world_after_polls transport j w1)).1 = Ok balancers ∧
       ∀ x, x ∈ balancers → ¬ (lb_name x = lb_name balancer ∧ lb_id x ≠ JNull)) →
  list_balancers transport (world_after_polls transport k w1) = (Ok (pre ++ i :: post), wk) →
  (∀ x, x ∈ pre → ¬ (lb_name x = lb_name balancer ∧ lb_id x ≠ JNull)) →
  lb_name i = lb_name balancer → lb_id i ≠ JNull →
  create_balancer transport DEFAULT_ALGORITHM _get_first_ip
    name port algorithm members w = (Ok i, wk) ∧
  log wk = log w1 ++ mjoin (replicate k [EvRequest list_request; EvSleep 30])
                  ++ [EvRequest list_request].
Proof.
  intros Hcreate Hnull Hk Hpolls Hlist Hpre Hname Hid. split.
  - unfold create_balancer, bind. rewrite Hcreate.
    rewrite bool_decide_eq_false_2 by (intros Hne; exact (Hne Hnull)).
    rewrite (poll_skip balancer k 0 w1).
    + rewrite poll_step. rewrite decide_True by (unfold timeout, interval; lia).
      rewrite Hlist. rewrite find_resolved_first by assumption. reflexivity.
    + intros _. unfold timeout, interval. lia.
    + apply unresolved_rounds. exact Hpolls.
  - pose proof (list_balancers_log (world_after_polls transport k w1)) as Hlog.
    rewrite Hlist in Hlog. cbn in Hlog. rewrite Hlog, world_after_polls_log.
    rewrite <- app_assoc. reflexivity.
Qed.

(** X2: when the create response carries no identifier, the first [k < 40]
    listings hold no match and the next listing raises, [create_balancer]
    raises that same error, after [k + 1] list requests and [k] sleeps. *)
Theorem create_balancer_propagates_listing_error
    (name port : json) (algorithm : option Algorithm) (members : list Member)
    (w w1 wk : World Conn) (balancer : LoadBalancer) (k : nat) (e : Exn) :
  ex_create_balancer_nowait transport DEFAULT_ALGORITHM _get_first_ip
    name port algorithm members w = (Ok balancer, w1) →
  lb_id balancer = JNull →
  (k < 40)%nat →
  (∀ j, (j < k)%nat →
     ∃ balancers,
       (list_balancers transport (world_after_polls transport j w1)).1 = Ok balancers ∧
       ∀ x, x ∈ balancers → ¬ (lb_name x = lb_name balancer ∧ lb_id x ≠ JNull)) →
  list_balancers transport (world_after_polls transport k w1) = (Err e, wk) →
  create_balancer transport DEFAULT_ALGORITHM _get_first_ip
    name port algorithm members w = (Err e, wk) ∧
  log wk = log w1 ++ mjoin (replicate k [EvRequest list_request; EvSleep 30])
                  ++ [EvRequest list_request].
Proof.
  intros Hcreate Hnull Hk Hpolls Hlist. split.
  - unfold create_balancer, bind. rewrite Hcreate.
    rewrite bool_decide_eq_false_2 by (intros Hne; exact (Hne Hnull)).
    rewrite (poll_skip balancer k 0 w1).
    + rewrite poll_step. rewrite decide_True by (unfold timeout, interval; lia).
      rewrite Hlist. reflexivity.
    + intros _. unfold timeout, interval. lia.
    + apply unresolved_rounds. exact Hpolls.
  - pose proof (list_balancers_log (world_after_polls transport k w1)) as Hlog.
    rewrite Hlist in Hlog. cbn in Hlog. rewrite Hlog, world_after_polls_log.
    rewrite <- app_assoc. reflexivity.
Qed.

Lemma poll_ok_resolved (balancer : LoadBalancer) (n : nat) :
  ∀ (waittime : Z) (w w' : World Conn) (i : LoadBalancer),
    timeout ≤ waittime + interval * Z.of_nat n →
    poll transport balancer waittime w = (Ok i, w') →
    resolved balancer i = true.
Proof.
  induction n as [|n IH]; intros waittime w w' i Hup; rewrite poll_step.
  - rewrite decide_False by lia. discriminate.
  - destruct (decide (waittime < timeout)) as [_|_]; [|discriminate].
    destruct (list_balancers transport w) as [[balancers|e] w1]; [|discriminate].
    destruct (find (resolved balancer) balancers) as [x|] eqn:Hfind.
    + intros Heq. injection Heq as -> _. apply find_some in Hfind. apply Hfind.
    + apply IH. lia.
Qed.

(** X3: a balancer that [create_balancer] returns has an identifier and the
    name of the balancer the create request returned; it is that very
    balancer, in the world the create request left, when that one had an
    identifier. *)
Theorem create_balancer_result_has_identifier
    (name port : json) (algorithm : option Algorithm) (members : list Member)
    (w w' : World Conn) (b : LoadBalancer) :
  create_balancer transport DEFAULT_ALGORITHM _get_first_ip
    name port algorithm members w = (Ok b, w') →
  lb_id b ≠ JNull ∧
  ∃ a w1,
    ex_create_balancer_nowait transport DEFAULT_ALGORITHM _get_first_ip
      name port algorithm members w = (Ok a, w1) ∧
    lb_name b = lb_name a ∧
    (lb_id a ≠ JNull → b = a ∧ w' = w1).
Proof.
  unfold create_balancer, bind.
  destruct (ex_create_balancer_nowait transport DEFAULT_ALGORITHM _get_first_ip
              name port algorithm members w) as [[a|e] w1]; [|discriminate].
  destruct (bool_decide (lb_id a ≠ JNull)) eqn:Hid.
  - intros Heq. injection Heq as -> ->.
    apply bool_decide_eq_true_1 in Hid.
    split; [exact Hid|]. exists b, w'. repeat split; reflexivity.
  - intros Hpoll. apply bool_decide_eq_false_1 in Hid.
    apply (poll_ok_resolved a 40) in Hpoll; [|unfold timeout, interval; lia].
    unfold resolved in Hpoll. apply andb_prop in Hpoll as [Hn Hi].
    apply bool_decide_eq_true_1 in Hn. apply bool_decide_eq_true_1 in Hi.
    split; [exact Hi|]. exists a, w1. split; [reflexivity|].
    split; [exact Hn|]. intros Ha. contradiction.
Qed.


(** *** What becomes of an error *)

(** X4: [_update_balancer] returns the response of the edit request as it
    is; it raises [LibcloudLBImmutableError] exactly when the request raised
    with "Update already pending" in its text; and it never lets the
    connection's own exception through. *)
Theorem update_balancer_outcomes (params : gmap string Param) (w : World Conn) :
  let r := MkRequest "/api/grid/loadbalancer/edit" POST params in
  (∀ resp c, transport r (conn w) = (inr resp, c) →
             _update_balancer transport params w
             = (Ok resp, MkWorld c (log w ++ [EvRequest r]))) ∧
  ((∃ value, (_update_balancer transport params w).1
             = Err (LibcloudLBImmutableError value)) ↔
   (∃ err c, transport r (conn w) = (inl err, c) ∧
             str_in "Update already pending" (exn_text err) = true)) ∧
  (∀ err c, transport r (conn w) = (inl err, c) →
            str_in "Update already pending" (exn_text err) = true →
            (_update_balancer transport params w).1
            = Err (LibcloudLBImmutableError "Balancer is immutable")) ∧
  (∀ err, (_update_balancer transport params w).1 ≠ Err (TransportError err)).
Proof.
  intros r. unfold _update_balancer, try_request. fold r.
  destruct (transport r (conn w)) as [[err|resp] c] eqn:Hout; cbn.
  - destruct (str_in "Update already pending" (exn_text err)) eqn:Hin; cbn.
    + repeat split.
      * intros resp c' Heq. discriminate Heq.
      * intros _. exists err, c. split; [reflexivity|exact Hin].
      * intros _. eexists. reflexivity.
      * intros err' Heq. discriminate Heq.
    + repeat split.
      * intros resp c' Heq. discriminate Heq.
      * intros [value Hv]. discriminate Hv.
      * intros (err' & c' & Heq & Hyes). injection Heq as He Hc. subst err' c'. congruence.
      * intros err' c' Heq Hyes. injection Heq as He Hc. subst err' c'. congruence.
      * intros err' Heq. discriminate Heq.
  - repeat split.
    + intros resp' c' Heq. injection Heq as Hr Hc. subst resp' c'. reflexivity.
    + intros [value Hv]. discriminate Hv.
    + intros (err & c' & Heq & _). discriminate Heq.
    + intros err c' Heq. discriminate Heq.
    + intros err Heq. discriminate Heq.
Qed.

(** X5: [list_balancers], [get_balancer] and [balancer_list_members] let an
    exception of their request through unchanged, after that one request. *)
Theorem lookups_propagate_request_errors (w : World Conn) (err : VendorExn) (c : Conn) :
  (transport list_request (conn w) = (inl err, c) →
   list_balancers transport w
   = (Err (TransportError err), MkWorld c (log w ++ [EvRequest list_request]))) ∧
  (∀ kwargs params,
     (∃ name, kwargs !! "ex_balancer_name" = Some name ∧
              params = {["name" := PVal name]}) ∨
     (kwargs !! "ex_balancer_name" = None ∧
      ∃ balancer_id, kwargs !! "balancer_id" = Some balancer_id ∧
                     params = {["id" := PVal balancer_id]}) →
     let r := MkRequest "/api/grid/loadbalancer/get" GET params in
     transport r (conn w) = (inl err, c) →
     get_balancer transport kwargs w
     = (Err (TransportError err), MkWorld c (log w ++ [EvRequest r]))) ∧
  (∀ balancer,
     let r := MkRequest "/api/grid/loadbalancer/get" GET
                {["id" := PVal (lb_id balancer)]} in
     transport r (conn w) = (inl err, c) →
     balancer_list_members transport balancer w
     = (Err (TransportError err), MkWorld c (log w ++ [EvRequest r]))).
Proof.
  repeat split.
  - intros Hraise. unfold list_balancers, bind, request, try_request.
    rewrite Hraise. reflexivity.
  - intros kwargs params Hparams r Hraise.
    rewrite (get_balancer_sends kwargs params w Hparams).
    unfold bind, request, try_request. fold r. rewrite Hraise. reflexivity.
  - intros balancer r Hraise. unfold balancer_list_members, bind, request, try_request.
    fold r. rewrite Hraise. reflexivity.
Qed.

(** X6: when the member list cannot be fetched, [balancer_attach_member] and
    [balancer_detach_member] raise the error of the fetch and send no edit
    request: they end in the world the fetch left. *)
Theorem member_changes_stop_at_failed_fetch
    (balancer : LoadBalancer) (member : Member) (w w0 : World Conn) (e : Exn) :
  balancer_list_members transport balancer w = (Err e, w0) →
  balancer_attach_member transport balancer member w = (Err e, w0) ∧
  balancer_detach_member transport balancer member w = (Err e, w0).
Proof.
  intros Hfetch. split.
  - unfold balancer_attach_member. unfold bind at 1. rewrite Hfetch. reflexivity.
  - unfold balancer_detach_member. unfold bind at 1. rewrite Hfetch. reflexivity.
Qed.

(** X7: when the member list is fetched and the edit request then raises,
    [balancer_attach_member] raises what [_update_balancer] raises, and so,
    on its own edit request, does [balancer_detach_member]:
    [LibcloudLBImmutableError] for a text with "Update already pending", and
    for any other text the [UnboundLocalError] of the [raise] after the
    handler. *)
Theorem member_changes_translate_edit_errors
    (balancer : LoadBalancer) (member : Member) (members : list Member)
    (w w0 : World Conn) :
  balancer_list_members transport balancer w = (Ok members, w0) →
  let raised := λ err : VendorExn,
    if str_in "Update already pending" (exn_text err)
    then LibcloudLBImmutableError "Balancer is immutable"
    else UnboundLocalError "err" in
  (∀ err c,
     transport (MkRequest "/api/grid/loadbalancer/edit" POST
                  (dict_update {["id" := PVal (lb_id balancer)]}
                     (_members_to_params (members ++ [member])))) (conn w0)
     = (inl err, c) →
     (balancer_attach_member transport balancer member w).1 = Err (raised err)) ∧
  (∀ err c,
     transport (MkRequest "/api/grid/loadbalancer/edit" POST
                  (dict_update {["id" := PVal (lb_id balancer)]}
                     (_members_to_params
                        (filter (λ n, m_id n ≠ m_id member) members)))) (conn w0)
     = (inl err, c) →
     (balancer_detach_member transport balancer member w).1 = Err (raised err)).
Proof.
  intros Hfetch raised. subst raised. split.
  - intros err c Hattach.
    unfold balancer_attach_member. unfold bind at 1. rewrite Hfetch. cbv zeta.
    unfold bind at 1. unfold _update_balancer, try_request. rewrite Hattach.
    destruct (str_in "Update already pending" (exn_text err)); reflexivity.
  - intros err c Hdetach.
    unfold balancer_detach_member. unfold bind at 1. rewrite Hfetch. cbv zeta.
    unfold bind at 1. unfold _update_balancer, try_request. rewrite Hdetach.
    destruct (str_in "Update already pending" (exn_text err)); reflexivity.
Qed.

(** *** What attach and detach resubmit *)

(** X8: with [members] the list that [balancer_attach_member] fetched, the
    one request it then sends is the edit request with the balancer's
    identifier, the fetched members at their indices and the new member at
    index [length members], and nothing else. *)
Theorem balancer_attach_member_resubmits_all_and_new
    (balancer : LoadBalancer) (member : Member) (members : list Member)
    (w w0 : World Conn) :
  balancer_list_members transport balancer w = (Ok members, w0) →
  ∃ params : gmap string Param,
    log (balancer_attach_member transport balancer member w).2
      = log w0 ++ [EvRequest (MkRequest "/api/grid/loadbalancer/edit" POST params)] ∧
    params !! "id" = Some (PVal (lb_id balancer)) ∧
    (∀ i n, members !! i = Some n →
            params !! ("realiplist." +:+ pretty i +:+ ".ip") = Some (PVal (m_ip n)) ∧
            params !! ("realiplist." +:+ pretty i +:+ ".port") = Some (PVal (m_port n))) ∧
    params !! ("realiplist." +:+ pretty (length members) +:+ ".ip")
      = Some (PVal (m_ip member)) ∧
    params !! ("realiplist." +:+ pretty (length members) +:+ ".port")
      = Some (PVal (m_port member)) ∧
    (∀ i, (length members < i)%nat → params !! ip_key i = None ∧ params !! port_key i = None) ∧
    (∀ k, k ≠ "id" → (∀ i, k ≠ ip_key i) → (∀ i, k ≠ port_key i) → params !! k = None).
Proof.
  intros Hfetch.
  set (base := ({["id" := PVal (lb_id balancer)]} : gmap string Param)).
  exists (dict_update base (_members_to_params (members ++ [member]))).
  destruct (not_key_of_head "id") as [Hid_ip Hid_port]; [discriminate|].
  assert (Hip : ∀ i, dict_update base (_members_to_params (members ++ [member])) !! ip_key i
                     = PVal ∘ m_ip <$> (members ++ [member]) !! i).
  { intros i. apply dict_update_ip. apply lookup_singleton_ne, Hid_ip. }
  assert (Hport : ∀ i, dict_update base (_members_to_params (members ++ [member])) !! port_key i
                       = PVal ∘ m_port <$> (members ++ [member]) !! i).
  { intros i. apply dict_update_port. apply lookup_singleton_ne, Hid_port. }
  fold (ip_key (length members)). fold (port_key (length members)).
  repeat split.
  - unfold balancer_attach_member. unfold bind at 1. rewrite Hfetch. cbv zeta.
    fold base. unfold bind at 1. rewrite <- update_balancer_log.
    destruct (_update_balancer transport _ w0) as [[resp|e] w']; [|reflexivity].
    unfold bind, lift. destruct (realiplist_of (object resp)); [|reflexivity].
    destruct (_to_members _); reflexivity.
  - rewrite dict_update_other by assumption. apply lookup_singleton_eq.
  - fold (ip_key i). rewrite Hip, lookup_app_l by (eapply lookup_lt_Some; eassumption).
    rewrite H. reflexivity.
  - fold (port_key i). rewrite Hport, lookup_app_l by (eapply lookup_lt_Some; eassumption).
    rewrite H. reflexivity.
  - rewrite Hip, lookup_app_r by lia. rewrite Nat.sub_diag. reflexivity.
  - rewrite Hport, lookup_app_r by lia. rewrite Nat.sub_diag. reflexivity.
  - rewrite Hip, lookup_ge_None_2; [reflexivity|]. rewrite length_app. cbn. lia.
  - rewrite Hport, lookup_ge_None_2; [reflexivity|]. rewrite length_app. cbn. lia.
  - intros k Hk Hkip Hkport. rewrite dict_update_other by assumption.
    apply lookup_singleton_ne. apply not_eq_sym, Hk.
Qed.

(** X9: detaching a member whose identifier none of the fetched members
    has resubmits the fetched list as it is. *)
Theorem balancer_detach_member_of_stranger
    (balancer : LoadBalancer) (member : Member) (members : list Member)
    (w w0 : World Conn) :
  balancer_list_members transport balancer w = (Ok members, w0) →
  (∀ n, n ∈ members → m_id n ≠ m_id member) →
  log (balancer_detach_member transport balancer member w).2
  = log w0 ++ [EvRequest (MkRequest "/api/grid/loadbalancer/edit" POST
                            (dict_update {["id" := PVal (lb_id balancer)]}
                               (_members_to_params members)))].
Proof.
  intros Hfetch Hstranger.
  assert (Hfilter : ∀ ms : list Member,
            (∀ n, n ∈ ms → m_id n ≠ m_id member) →
            filter (λ n, m_id n ≠ m_id member) ms = ms).
  { intros ms Hms. induction ms as [|n ms IH]; [reflexivity|].
    rewrite filter_cons_True by (apply Hms; left). f_equal.
    apply IH. intros x Hx. apply Hms. right. exact Hx. }
  unfold balancer_detach_member. unfold bind at 1. rewrite Hfetch. cbv zeta.
  rewrite (Hfilter members Hstranger).
  unfold bind. rewrite <- update_balancer_log.
  destruct (_update_balancer transport _ w0) as [[resp|e] w']; reflexivity.
Qed.


(** *** Parsing, element by element *)

Lemma mapM_Ok_Forall2 {A B} (f : A → Result B) (l : list A) (bs : list B) :
  mapM f l = Ok bs ↔ Forall2 (λ a b, f a = Ok b) l bs.
Proof.
  revert bs. induction l as [|a l IH]; intros bs; cbn.
  - split.
    + intros Heq. injection Heq as <-. constructor.
    + intros Hall. inversion Hall. reflexivity.
  - split.
    + destruct (f a) as [b|e] eqn:Ha; cbn; [|discriminate].
      destruct (mapM f l) as [bs'|e] eqn:Hl; cbn; [|discriminate].
      intros Heq. injection Heq as <-. constructor; [exact Ha|].
      apply IH. reflexivity.
    + intros Hall. inversion Hall as [|a' b l' bs' Ha Hrest]; subst.
      rewrite Ha. cbn. apply IH in Hrest. rewrite Hrest. reflexivity.
Qed.

(** X10: on a body whose "list" is a JSON list, [_to_balancers] returns
    one balancer per element, in the order of the list, each the parse of its
    element; and when an element fails after elements that parse, it raises
    the error of that element. *)
Theorem to_balancers_follows_the_list (body : json) (els : list json) :
  getitem body "list" = Ok (JArr els) →
  (∀ bs, _to_balancers body = Ok bs ↔
         Forall2 (λ el b, _to_balancer el = Ok b) els bs) ∧
  (∀ bs, _to_balancers body = Ok bs → length bs = length els) ∧
  (∀ pre el rest e,
     els = pre ++ el :: rest →
     Forall (λ y, ∃ b, _to_balancer y = Ok b) pre →
     _to_balancer el = Err e →
     _to_balancers body = Err e).
Proof.
  intros Hlist.
  assert (Hrun : _to_balancers body = mapM _to_balancer els).
  { unfold _to_balancers. rewrite Hlist. reflexivity. }
  rewrite Hrun. split; [|split].
  - intros bs. apply mapM_Ok_Forall2.
  - intros bs Hok. apply mapM_Ok_Forall2 in Hok. symmetry.
    exact (Forall2_length _ _ _ Hok).
  - intros pre el rest e -> Hpre Hel. apply mapM_first_failure; assumption.
Qed.

(** X11: [_to_member] succeeds exactly on an element whose "ip" entry has
    "id" and "ip" and that has "port", and the member holds those three
    values; [_to_members] of a JSON list returns one member per element in
    order, or the error of the first element that fails. *)
Theorem to_members_follows_the_list (els : list json) :
  (∀ el m, _to_member el = Ok m ↔
           ∃ el_ip, getitem el "ip" = Ok el_ip ∧
                    getitem el_ip "id" = Ok (m_id m) ∧
                    getitem el_ip "ip" = Ok (m_ip m) ∧
                    getitem el "port" = Ok (m_port m)) ∧
  (∀ ms, _to_members (JArr els) = Ok ms ↔
         Forall2 (λ el m, _to_member el = Ok m) els ms) ∧
  (∀ pre el rest e,
     els = pre ++ el :: rest →
     Forall (λ y, ∃ m, _to_member y = Ok m) pre →
     _to_member el = Err e →
     _to_members (JArr els) = Err e).
Proof.
  split; [|split].
  - intros el m. split.
    + unfold _to_member.
      destruct (getitem el "ip") as [el_ip|e]; cbn; [|discriminate].
      destruct (getitem el_ip "id") as [id|e] eqn:Hid; cbn; [|discriminate].
      destruct (getitem el_ip "ip") as [ip|e] eqn:Hip; cbn; [|discriminate].
      destruct (getitem el "port") as [port|e]; cbn; [|discriminate].
      intros Heq. injection Heq as <-. exists el_ip. cbn.
      split; [reflexivity|]. split; [exact Hid|]. split; [exact Hip|reflexivity].
    + intros (el_ip & Hip & Hid & Haddr & Hport). unfold _to_member.
      rewrite Hip. cbn. rewrite Hid. cbn. rewrite Haddr. cbn. rewrite Hport. cbn.
      destruct m; reflexivity.
  - intros ms. apply (mapM_Ok_Forall2 _to_member els ms).
  - intros pre el rest e -> Hpre Hel.
    apply (mapM_first_failure _to_member); assumption.
Qed.

(** X12: a balancer that [_to_balancer] returns holds the element's "id"
    ([None] when there is none), its "name", the "ip" under "ip" under
    "virtualip" and the "port" under "virtualip"; its state is [RUNNING]
    exactly when the "name" under "state" is the string "On". *)
Theorem to_balancer_fields (el : json) (b : LoadBalancer) :
  _to_balancer el = Ok b →
  py_get el "id" = Ok (lb_id b) ∧
  getitem el "name" = Ok (lb_name b) ∧
  (∃ st state_name,
     getitem el "state" = Ok st ∧ getitem st "name" = Ok state_name ∧
     (lb_state b = RUNNING ↔ state_name = JStr "On")) ∧
  (∃ vip vip_ip,
     getitem el "virtualip" = Ok vip ∧ getitem vip "ip" = Ok vip_ip ∧
     getitem vip_ip "ip" = Ok (lb_ip b) ∧ getitem vip "port" = Ok (lb_port b)).
Proof.
  unfold _to_balancer.
  destruct (py_get el "id") as [id|e] eqn:Hid; cbn; [|discriminate].
  destruct (getitem el "name") as [name|e] eqn:Hname; cbn; [|discriminate].
  destruct (getitem el "state") as [st|e] eqn:Hst; cbn; [|discriminate].
  destruct (getitem st "name") as [state_name|e] eqn:Hsn; cbn; [|discriminate].
  destruct (state_of state_name) as [state|e] eqn:Hstate; cbn; [|discriminate].
  destruct (getitem el "virtualip") as [vip|e] eqn:Hvip; cbn; [|discriminate].
  destruct (getitem vip "ip") as [vip_ip|e] eqn:Hvi; cbn; [|discriminate].
  destruct (getitem vip_ip "ip") as [ip|e] eqn:Hip; cbn; [|discriminate].
  destruct (getitem vip "port") as [port|e] eqn:Hport; cbn; [|discriminate].
  intros Heq. injection Heq as <-. cbn.
  split; [reflexivity|]. split; [reflexivity|]. split.
  - exists st, state_name. split; [reflexivity|]. split; [exact Hsn|].
    destruct state_name as [|n|s|l|o]; cbn in Hstate; try discriminate Hstate;
      injection Hstate as <-.
    + split; discriminate.
    + split; discriminate.
    + rewrite state_lookup. destruct (decide (s = "On")) as [->|Hne].
      * split; reflexivity.
      * split; [discriminate|]. intros Heq. injection Heq as ->. contradiction.
  - exists vip, vip_ip. split; [reflexivity|]. split; [exact Hvi|].
    split; [exact Hip|exact Hport].
Qed.

(** X13: [balancer_list_members] reads the members of the first listed
    element only: with an empty "list" it raises [IndexError], and otherwise
    its result is the parse of the first element's "realiplist", whatever
    follows that element. *)
Theorem balancer_list_members_reads_first_element
    (balancer : LoadBalancer) (w : World Conn) (resp : Response) (c : Conn)
    (els : list json) :
  transport (MkRequest "/api/grid/loadbalancer/get" GET
               {["id" := PVal (lb_id balancer)]}) (conn w) = (inr resp, c) →
  getitem (object resp) "list" = Ok (JArr els) →
  (els = [] → (balancer_list_members transport balancer w).1 = Err IndexError) ∧
  (∀ el rest, els = el :: rest →
     (∀ e, getitem el "realiplist" = Err e →
           (balancer_list_members transport balancer w).1 = Err e) ∧
     (∀ l, getitem el "realiplist" = Ok l →
           (balancer_list_members transport balancer w).1 = _to_members l)).
Proof.
  intros Hresp Hlist.
  assert (Hrun : (balancer_list_members transport balancer w).1 =
                 match realiplist_of (object resp) with
                 | Ok l => _to_members l
                 | Err e => Err e
                 end).
  { unfold balancer_list_members, bind, request, try_request. rewrite Hresp. cbn.
    unfold lift. destruct (realiplist_of (object resp)); reflexivity. }
  rewrite Hrun. unfold realiplist_of. rewrite Hlist. cbn. split.
  - intros ->. reflexivity.
  - intros el rest ->. cbn. split.
    + intros e He. rewrite He. reflexivity.
    + intros l Hl. rewrite Hl. reflexivity.
Qed.

(** X14: when the vendor answers a lookup with an empty "list",
    [get_balancer] raises [IndexError]. *)
Theorem get_balancer_of_empty_list
    (kwargs : gmap string json) (params : gmap string Param)
    (w : World Conn) (resp : Response) (c : Conn) :
  (∃ name, kwargs !! "ex_balancer_name" = Some name ∧
           params = {["name" := PVal name]}) ∨
  (kwargs !! "ex_balancer_name" = None ∧
   ∃ balancer_id, kwargs !! "balancer_id" = Some balancer_id ∧
                  params = {["id" := PVal balancer_id]}) →
  transport (MkRequest "/api/grid/loadbalancer/get" GET params) (conn w) = (inr resp, c) →
  getitem (object resp) "list" = Ok (JArr []) →
  (get_balancer transport kwargs w).1 = Err IndexError.
Proof.
  intros Hparams Hresp Hlist.
  rewrite (get_balancer_sends kwargs params w Hparams).
  unfold bind, request, try_request. rewrite Hresp. cbn.
  unfold lift, _to_balancers. rewrite Hlist. reflexivity.
Qed.


(** *** The encoding of members *)

Lemma members_to_params_from_size (members : list Member) :
  ∀ (i : nat) (params : gmap string Param),
    (∀ j, (i ≤ j)%nat → params !! ip_key j = None ∧ params !! port_key j = None) →
    size (_members_to_params_from i members params)
    = (size params + 2 * length members)%nat.
Proof.
  induction members as [|a rest IH]; intros i params Hfresh;
    cbn [_members_to_params_from length].
  - lia.
  - destruct (Hfresh i ltac:(lia)) as [Hip Hport].
    rewrite IH.
    + rewrite map_size_insert_None.
      * rewrite map_size_insert_None by exact Hip. lia.
      * rewrite lookup_insert_ne by apply ip_key_ne_port_key. exact Hport.
    + intros j Hj. destruct (Hfresh j ltac:(lia)) as [Hjip Hjport]. split.
      * rewrite lookup_insert_ne by (apply not_eq_sym, ip_key_ne_port_key).
        rewrite lookup_insert_ne by (intros E; apply ip_key_inj in E; lia). exact Hjip.
      * rewrite lookup_insert_ne by (intros E; apply port_key_inj in E; lia).
        rewrite lookup_insert_ne by apply ip_key_ne_port_key. exact Hjport.
Qed.

(** X15: [_members_to_params] yields exactly two parameters per member: no
    two of the keys it writes coincide. *)
Theorem members_to_params_size (members : list Member) :
  size (_members_to_params members) = (2 * length members)%nat.
Proof.
  unfold _members_to_params. rewrite members_to_params_from_size.
  - rewrite map_size_empty. lia.
  - intros j _. split; apply lookup_empty.
Qed.

Lemma members_to_params_from_ext (members members' : list Member) :
  (λ m, (m_ip m, m_port m)) <$> members = (λ m, (m_ip m, m_port m)) <$> members' →
  ∀ (i : nat) (params : gmap string Param),
    _members_to_params_from i members params = _members_to_params_from i members' params.
Proof.
  revert members'. induction members as [|a rest IH]; intros [|a' rest'] Heq i params;
    cbn in Heq; try discriminate Heq; [reflexivity|].
  injection Heq as Hip Hport Hrest. cbn [_members_to_params_from].
  rewrite Hip, Hport. apply IH. exact Hrest.
Qed.

(** X16: two member lists are encoded to the same parameters exactly when
    they agree, position by position, on address and port: the encoding keeps
    these and the order, and drops the members' identifiers. *)
Theorem members_to_params_keeps_addresses (members members' : list Member) :
  _members_to_params members = _members_to_params members' ↔
  (λ m, (m_ip m, m_port m)) <$> members = (λ m, (m_ip m, m_port m)) <$> members'.
Proof.
  split.
  - intros Heq. apply list_eq. intros i. rewrite !list_lookup_fmap.
    pose proof (members_to_params_ip members i) as Hip.
    pose proof (members_to_params_port members i) as Hport.
    rewrite Heq, members_to_params_ip in Hip.
    rewrite Heq, members_to_params_port in Hport.
    destruct (members !! i) as [m|], (members' !! i) as [m'|]; cbn in *;
      try discriminate Hip; [|reflexivity].
    injection Hip as Hip. injection Hport as Hport. rewrite Hip, Hport. reflexivity.
  - intros Heq. unfold _members_to_params. apply members_to_params_from_ext. exact Heq.
Qed.

(** *** The create request *)

Lemma algorithm_to_value_total (a : Algorithm) :
  ∃ token, _algorithm_to_value a = Ok token ∧ _VALUE_TO_ALGORITHM_MAP !! token = Some a.
Proof. destruct a; eexists; split; reflexivity. Qed.

(** X17: once an address is allocated, [ex_create_balancer_nowait] sends one
    GET request to the add endpoint; it carries the name, the allocated
    address, the port, the members at their indices, "loadbalancer.type", and
    nothing else, so no member overrides one of the four named parameters. *)
Theorem ex_create_balancer_nowait_request
    (name port : json) (algorithm : option Algorithm) (members : list Member)
    (w w1 : World Conn) (ip : json) :
  _get_first_ip w = (Ok ip, w1) →
  ∃ r,
    log (ex_create_balancer_nowait transport DEFAULT_ALGORITHM _get_first_ip
           name port algorithm members w).2 = log w1 ++ [EvRequest r] ∧
    path r = "/api/grid/loadbalancer/add" ∧ method r = GET ∧
    params r !! "name" = Some (PVal name) ∧
    params r !! "virtualip.ip" = Some (PVal ip) ∧
    params r !! "virtualip.port" = Some (PVal port) ∧
    is_Some (params r !! "loadbalancer.type") ∧
    (∀ i, params r !! ("realiplist." +:+ pretty i +:+ ".ip")
          = PVal ∘ m_ip <$> members !! i) ∧
    (∀ i, params r !! ("realiplist." +:+ pretty i +:+ ".port")
          = PVal ∘ m_port <$> members !! i) ∧
    (∀ k, k ∉ ["name"; "loadbalancer.type"; "virtualip.ip"; "virtualip.port"] →
          (∀ i, k ≠ ip_key i) → (∀ i, k ≠ port_key i) → params r !! k = None).
Proof.
  intros Hip.
  pose (mk := λ ty : Param,
          dict_update
            (<["virtualip.port" := PVal port]>
               (<["virtualip.ip" := PVal ip]>
                  (<["loadbalancer.type" := ty]>
                     (<["name" := PVal name]> (∅ : gmap string Param)))))
            (_members_to_params members)).
  assert (Hrun : ∃ ty, log (ex_create_balancer_nowait transport DEFAULT_ALGORITHM
                              _get_first_ip name port algorithm members w).2
                       = log w1 ++ [EvRequest (MkRequest "/api/grid/loadbalancer/add"
                                                 GET (mk ty))]).
  { assert (Hlog : ∀ p : gmap string Param,
              log (bind (request transport (MkRequest "/api/grid/loadbalancer/add" GET p))
                     (λ resp, bind (lift (_to_balancers (object resp)))
                                (λ balancers, lift (first balancers))) w1).2
              = log w1 ++ [EvRequest (MkRequest "/api/grid/loadbalancer/add" GET p)]).
    { intros p. unfold bind. rewrite <- request_log.
      destruct (request transport _ w1) as [[resp|e] w']; [|reflexivity].
      unfold lift. destruct (_to_balancers (object resp)); reflexivity. }
    destruct algorithm as [a|].
    - destruct (algorithm_to_value_total a) as (token & Htok & _).
      exists (PVal (JStr token)). unfold ex_create_balancer_nowait. rewrite Htok.
      unfold bind at 1. cbn. unfold bind at 1. rewrite Hip. apply Hlog.
    - exists (PAlgorithm DEFAULT_ALGORITHM). unfold ex_create_balancer_nowait.
      unfold bind at 1. cbn. unfold bind at 1. rewrite Hip. apply Hlog. }
  destruct Hrun as [ty Hrun].
  exists (MkRequest "/api/grid/loadbalancer/add" GET (mk ty)).
  split; [exact Hrun|]. split; [reflexivity|]. split; [reflexivity|]. cbn [params].
  assert (Hfixed : ∀ k, (∀ s, k ≠ String "r"%char s) →
            mk ty !! k =
            (<["virtualip.port" := PVal port]>
               (<["virtualip.ip" := PVal ip]>
                  (<["loadbalancer.type" := ty]>
                     (<["name" := PVal name]> (∅ : gmap string Param))))) !! k).
  { intros k Hk. destruct (not_key_of_head k Hk) as [Hkip Hkport].
    unfold mk. apply dict_update_other; assumption. }
  split; [rewrite Hfixed by discriminate; reflexivity|].
  split; [rewrite Hfixed by discriminate; reflexivity|].
  split; [rewrite Hfixed by discriminate; reflexivity|].
  split; [rewrite Hfixed by discriminate; eexists; reflexivity|].
  split; [|split].
  - intros i. fold (ip_key i). unfold mk. apply dict_update_ip.
    destruct (ip_key_head i) as [s ->]. reflexivity.
  - intros i. fold (port_key i). unfold mk. apply dict_update_port.
    destruct (port_key_head i) as [s ->]. reflexivity.
  - intros k Hk Hkip Hkport. unfold mk. rewrite dict_update_other by assumption.
    rewrite !lookup_insert_ne; [apply lookup_empty|..];
      intros <-; apply Hk; set_solver.
Qed.

(** X18: when no address can be allocated, [ex_create_balancer_nowait] and
    [create_balancer] raise the allocator's error in the world the allocator
    left: no request is sent, whatever algorithm was asked for. *)
Theorem create_stops_without_address
    (name port : json) (algorithm : option Algorithm) (members : list Member)
    (w w1 : World Conn) (e : Exn) :
  _get_first_ip w = (Err e, w1) →
  ex_create_balancer_nowait transport DEFAULT_ALGORITHM _get_first_ip
    name port algorithm members w = (Err e, w1) ∧
  create_balancer transport DEFAULT_ALGORITHM _get_first_ip
    name port algorithm members w = (Err e, w1).
Proof.
  intros Hip.
  assert (Hnowait : ex_create_balancer_nowait transport DEFAULT_ALGORITHM _get_first_ip
                      name port algorithm members w = (Err e, w1)).
  { unfold ex_create_balancer_nowait. destruct algorithm as [a|].
    - destruct (algorithm_to_value_total a) as (token & Htok & _). rewrite Htok.
      unfold bind at 1. cbn. unfold bind at 1. rewrite Hip. reflexivity.
    - unfold bind at 1. cbn. unfold bind at 1. rewrite Hip. reflexivity. }
  split; [exact Hnowait|].
  unfold create_balancer, bind. rewrite Hnowait. reflexivity.
Qed.

(** X19: when the vendor answers the create request with an empty "list",
    [ex_create_balancer_nowait] raises [IndexError], and so does
    [create_balancer], without polling. *)
Theorem create_of_empty_list
    (name port : json) (algorithm : option Algorithm) (members : list Member)
    (w w1 : World Conn) (ip : json) (resp : Response) :
  _get_first_ip w = (Ok ip, w1) →
  (∀ r, path r = "/api/grid/loadbalancer/add" →
        ∃ c, transport r (conn w1) = (inr resp, c)) →
  getitem (object resp) "list" = Ok (JArr []) →
  (ex_create_balancer_nowait transport DEFAULT_ALGORITHM _get_first_ip
     name port algorithm members w).1 = Err IndexError ∧
  list_calls (log (create_balancer transport DEFAULT_ALGORITHM _get_first_ip
                     name port algorithm members w).2) = list_calls (log w1) ∧
  (create_balancer transport DEFAULT_ALGORITHM _get_first_ip
     name port algorithm members w).1 = Err IndexError.
Proof.
  intros Hip Hresp Hlist.
  assert (Htail : ∀ p : gmap string Param,
            ∃ c, bind (request transport (MkRequest "/api/grid/loadbalancer/add" GET p))
                   (λ resp, bind (lift (_to_balancers (object resp)))
                              (λ balancers, lift (first balancers))) w1
                 = (Err IndexError,
                    MkWorld c (log w1 ++ [EvRequest (MkRequest "/api/grid/loadbalancer/add"
                                                       GET p)]))).
  { intros p. destruct (Hresp (MkRequest "/api/grid/loadbalancer/add" GET p) eq_refl)
      as [c Hc]. exists c.
    unfold bind, request, try_request. rewrite Hc. cbn.
    unfold lift, _to_balancers. rewrite Hlist. reflexivity. }
  assert (Hnowait : ∃ c p,
            ex_create_balancer_nowait transport DEFAULT_ALGORITHM _get_first_ip
              name port algorithm members w
            = (Err IndexError,
               MkWorld c (log w1 ++ [EvRequest (MkRequest "/api/grid/loadbalancer/add"
                                                  GET p)]))).
  { unfold ex_create_balancer_nowait. destruct algorithm as [a|].
    - destruct (algorithm_to_value_total a) as (token & Htok & _). rewrite Htok.
      unfold bind at 1. cbn. unfold bind at 1. rewrite Hip.
      match goal with |- context [MkRequest _ GET ?p] =>
        destruct (Htail p) as [c Hc]; exists c, p; exact Hc end.
    - unfold bind at 1. cbn. unfold bind at 1. rewrite Hip.
      match goal with |- context [MkRequest _ GET ?p] =>
        destruct (Htail p) as [c Hc]; exists c, p; exact Hc end. }
  destruct Hnowait as (c & p & Hnowait).
  unfold create_balancer, bind. rewrite Hnowait. cbn [fst snd log].
  split; [reflexivity|]. split; [|reflexivity].
  rewrite list_calls_app.
  change (list_calls [EvRequest (MkRequest "/api/grid/loadbalancer/add" GET p)])
    with 0%nat. lia.
Qed.

(** *** The containment test *)

Lemma starts_with_spec (needle hay : string) :
  starts_with needle hay = true ↔ ∃ post, hay = needle +:+ post.
Proof.
  revert hay. induction needle as [|a needle IH]; intros hay.
  - split; [intros _; exists hay; reflexivity|reflexivity].
  - destruct hay as [|b hay]; cbn [starts_with].
    + split; [discriminate|]. intros [post Hpost]. discriminate Hpost.
    + destruct (decide (a = b)) as [->|Hne].
      * rewrite IH. split.
        -- intros [post ->]. exists post. reflexivity.
        -- intros [post Hpost].
           change (String b hay = String b (needle +:+ post)) in Hpost.
           injection Hpost as ->. exists post. reflexivity.
      * split; [discriminate|]. intros [post Hpost].
        change (String b hay = String a (needle +:+ post)) in Hpost.
        injection Hpost as Hab _. congruence.
Qed.

(** X20: the test [needle in hay] that classifies the vendor's errors holds
    exactly when the text is some prefix, then the pattern, then some
    suffix: it finds the pattern at any position. *)
Theorem str_in_spec (needle hay : string) :
  str_in needle hay = true ↔ ∃ pre post, hay = pre +:+ needle +:+ post.
Proof.
  split.
  - induction hay as [|a hay IH]; cbn [str_in]; intros Hin.
    + rewrite orb_false_r in Hin. apply starts_with_spec in Hin as [post ->].
      exists "", post. reflexivity.
    + apply orb_prop in Hin as [Hhere|Hlater].
      * apply starts_with_spec in Hhere as [post ->]. exists "", post. reflexivity.
      * destruct (IH Hlater) as (pre & post & ->).
        exists (String a pre), post. reflexivity.
  - intros (pre & post & ->). induction pre as [|a pre IH].
    + change ("" +:+ needle +:+ post) with (needle +:+ post).
      assert (Hhere : starts_with needle (needle +:+ post) = true)
        by (apply starts_with_spec; exists post; reflexivity).
      destruct (needle +:+ post); cbn [str_in]; rewrite Hhere; reflexivity.
    + change (String a pre +:+ needle +:+ post)
        with (String a (pre +:+ needle +:+ post)).
      apply str_in_cons. exact IH.
Qed.

End DriverFacts.

(** * The driver on the fixtures *)

Example to_balancer_pending : _to_balancer el_pending = Ok pending.
Proof. reflexivity. Qed.

Example to_balancer_ready : _to_balancer el_ready = Ok ready.
Proof. reflexivity. Qed.

Example to_members_fixture : _to_members members_json = Ok [m1; m2; m3].
Proof. reflexivity. Qed.

Example members_to_params_fixture :
  _members_to_params [m1; m2] !! "realiplist.1.ip" = Some (PVal (JStr "10.0.0.2")) ∧
  _members_to_params [m1; m2] !! "realiplist.0.port" = Some (PVal (JNum 80)) ∧
  _members_to_params [m1; m2] !! "realiplist.2.ip" = None ∧
  size (_members_to_params [m1; m2]) = 4%nat.
Proof. vm_compute. repeat split. Qed.

Lemma create_balancer_polls_40_times_then_fails_witness :
  ∃ w' evs,
    create_balancer (answers el_pending) ROUND_ROBIN first_ip
      (JStr "lb") (JNum 80) (Some LEAST_CONNECTIONS) [] start
    = (Err (Exception "Failed to get id"), w') ∧
    log w' = log (ex_create_balancer_nowait (answers el_pending) ROUND_ROBIN first_ip
                    (JStr "lb") (JNum 80) (Some LEAST_CONNECTIONS) [] start).2 ++ evs ∧
    list_calls evs = 40%nat.
Proof.
  destruct (create_balancer_polls_40_times_then_fails
              (answers el_pending) ROUND_ROBIN first_ip
              (JStr "lb") (JNum 80) (Some LEAST_CONNECTIONS) [] start
              (ex_create_balancer_nowait (answers el_pending) ROUND_ROBIN first_ip
                 (JStr "lb") (JNum 80) (Some LEAST_CONNECTIONS) [] start).2
              pending)
    as [(w' & evs & Hrun & Hlog & _ & Hcalls & _) _].
  - reflexivity.
  - reflexivity.
  - intros k. exists [pending]. split; [reflexivity|].
    intros i Hi [_ Hid]. apply list_elem_of_singleton in Hi. subst i.
    apply Hid. reflexivity.
  - exists w', evs. split; [exact Hrun|split; [exact Hlog|exact Hcalls]].
Defined.


Lemma update_balancer_loses_other_errors_witness :
  (_update_balancer (refuses "Internal error") ∅ start).1 = Err (UnboundLocalError "err") ∧
  ∀ value, (_update_balancer (refuses "Internal error") ∅ start).1
           ≠ Err (LibcloudError value).
Proof.
  apply (update_balancer_loses_other_errors (refuses "Internal error") ∅ start
           (MkVendorExn "Exception" "Internal error") 1%nat).
  - reflexivity.
  - reflexivity.
Defined.

Lemma create_balancer_returns_immediately_witness :
  create_balancer (answers el_ready) ROUND_ROBIN first_ip
    (JStr "lb") (JNum 80) None [m1] start
  = (Ok ready,
     (ex_create_balancer_nowait (answers el_ready) ROUND_ROBIN first_ip
        (JStr "lb") (JNum 80) None [m1] start).2) ∧
  length (log (create_balancer (answers el_ready) ROUND_ROBIN first_ip
                 (JStr "lb") (JNum 80) None [m1] start).2) = 1%nat.
Proof.
  destruct (create_balancer_returns_immediately (answers el_ready) ROUND_ROBIN first_ip
              (JStr "lb") (JNum 80) None [m1] start
              (ex_create_balancer_nowait (answers el_ready) ROUND_ROBIN first_ip
                 (JStr "lb") (JNum 80) None [m1] start).2
              ready) as [Hrun Hlog].
  - reflexivity.
  - discriminate.
  - split; [exact Hrun|]. rewrite Hlog. reflexivity.
Defined.

Lemma ex_create_balancer_nowait_type_parameter_witness :
  ∃ r,
    log (ex_create_balancer_nowait (answers el_ready) ROUND_ROBIN first_ip
           (JStr "lb") (JNum 80) None [m1] start).2 = [EvRequest r] ∧
    path r = "/api/grid/loadbalancer/add" ∧
    params r !! "loadbalancer.type" = Some (PAlgorithm ROUND_ROBIN) ∧
    ∀ token, params r !! "loadbalancer.type" ≠ Some (PVal (JStr token)).
Proof.
  apply (ex_create_balancer_nowait_type_parameter (answers el_ready) ROUND_ROBIN first_ip
           (JStr "lb") (JNum 80) None [m1] start start (JStr "9.9.9.9")).
  reflexivity.
Defined.

Lemma balancer_attach_member_returns_first_match_witness :
  (balancer_attach_member (answers el_ready) ready
     (MkMember JNull (JStr "10.0.0.2") (JNum 80)) start).1 = Ok m2.
Proof.
  destruct (balancer_attach_member_returns_first_match (answers el_ready) ready
              (MkMember JNull (JStr "10.0.0.2") (JNum 80)) [m1; m2; m3]
              start (MkWorld 1%nat [EvRequest (MkRequest "/api/grid/loadbalancer/get" GET
                                                 {["id" := PVal (JNum 7)]})])
              (_update_balancer (answers el_ready)
                 (dict_update {["id" := PVal (JNum 7)]}
                    (_members_to_params
                       ([m1; m2; m3] ++ [MkMember JNull (JStr "10.0.0.2") (JNum 80)])))
                 (MkWorld 1%nat [EvRequest (MkRequest "/api/grid/loadbalancer/get" GET
                                              {["id" := PVal (JNum 7)]})])).2
              (MkResponse 200 (body el_ready)) members_json [m1; m2; m3])
    as [Hfirst _].
  - reflexivity.
  - reflexivity.
  - reflexivity.
  - reflexivity.
  - rewrite (Hfirst [m1] m2 [m3]).
    + reflexivity.
    + reflexivity.
    + reflexivity.
    + intros x Hx. apply list_elem_of_singleton in Hx. subst x. discriminate.
Defined.

Lemma balancer_detach_member_resubmits_the_rest_witness :
  ∃ params : gmap string Param,
    log (balancer_detach_member (answers el_ready) ready m2 start).2
    = log (balancer_list_members (answers el_ready) ready start).2
      ++ [EvRequest (MkRequest "/api/grid/loadbalancer/edit" POST params)] ∧
    params !! "id" = Some (PVal (JNum 7)) ∧
    params !! "realiplist.0.ip" = Some (PVal (JStr "10.0.0.1")) ∧
    params !! "realiplist.1.ip" = Some (PVal (JStr "10.0.0.2")) ∧
    params !! "realiplist.1.port" = Some (PVal (JNum 81)) ∧
    params !! "realiplist.2.ip" = None ∧
    (balancer_detach_member (answers el_ready) ready m2 start).1 = Ok true.
Proof.
  destruct (balancer_detach_member_resubmits_the_rest (answers el_ready) ready m2
              [m1; m2; m3] start
              (balancer_list_members (answers el_ready) ready start).2)
    as (params & Hlog & Hid & Hip & Hport & _ & Hret).
  - reflexivity.
  - exists params. split; [exact Hlog|]. split; [exact Hid|].
    split; [exact (Hip 0%nat)|]. split; [exact (Hip 1%nat)|].
    split; [exact (Hport 1%nat)|]. split; [exact (Hip 2%nat)|].
    destruct (Hret (MkResponse 200 (body el_ready)) 2%nat) as (b & Hb & Htrue).
    + reflexivity.
    + rewrite Hb. f_equal. apply Htrue. reflexivity.
Defined.


Example create_balancer_pending_run :
  let '(r, w) := create_balancer (answers el_pending) ROUND_ROBIN first_ip
                   (JStr "lb") (JNum 80) None [] start in
  r = Err (Exception "Failed to get id") ∧ conn w = 41%nat ∧
  list_calls (log w) = 40%nat ∧ length (log w) = 81%nat.
Proof. vm_compute. repeat split. Qed.

Example destroy_balancer_busy :
  (destroy_balancer (refuses "Update request for LoadBalancer 7 is pending") ready start).1
  = Err (LibcloudLBImmutableError "Cannot delete immutable object").
Proof. reflexivity. Qed.

Example destroy_balancer_other_error :
  (destroy_balancer (refuses "Unauthorized") ready start).1
  = Err (TransportError (MkVendorExn "Exception" "Unauthorized")).
Proof. reflexivity. Qed.

Example destroy_balancer_done :
  (destroy_balancer (answers el_ready) ready start).1 = Ok true.
Proof. reflexivity. Qed.

Example update_balancer_pending :
  (_update_balancer (refuses "Update already pending") ∅ start).1
  = Err (LibcloudLBImmutableError "Balancer is immutable").
Proof. reflexivity. Qed.

Example get_balancer_without_key :
  get_balancer (answers el_ready) ∅ start = (Err (KeyError (JStr "balancer_id")), start).
Proof. reflexivity. Qed.

Example get_balancer_name_over_id :
  let kwargs : gmap string json :=
    <["balancer_id" := JNum 7]> (<["ex_balancer_name" := JStr "lb"]> ∅) in
  get_balancer (answers el_ready) kwargs start
  = (Ok ready,
     MkWorld 1%nat [EvRequest (MkRequest "/api/grid/loadbalancer/get" GET
                                 {["name" := PVal (JStr "lb")]})]).
Proof. vm_compute. reflexivity. Qed.

Example to_balancer_without_name :
  _to_balancer (JObj [("id", JNum 7)]) = Err (KeyError (JStr "name")).
Proof. reflexivity. Qed.

Example to_balancer_without_state :
  _to_balancer (JObj [("id", JNum 7); ("name", JStr "lb")]) = Err (KeyError (JStr "state")).
Proof. reflexivity. Qed.

Example to_balancer_without_virtualip :
  _to_balancer (JObj [("name", JStr "lb"); ("state", JObj [("name", JStr "On")])])
  = Err (KeyError (JStr "virtualip")).
Proof. reflexivity. Qed.

Example create_type_parameter_given :
  match log (ex_create_balancer_nowait (answers el_ready) ROUND_ROBIN first_ip
               (JStr "lb") (JNum 80) (Some LEAST_CONNECTIONS) [] start).2 with
  | [EvRequest r] => params r !! "loadbalancer.type"
  | _ => None
  end = Some (PVal (JStr "least connection")).
Proof. vm_compute. reflexivity. Qed.


Lemma create_balancer_returns_first_resolved_witness :
  (create_balancer (answers_after 3) ROUND_ROBIN first_ip
     (JStr "lb") (JNum 80) None [] start).1 = Ok ready ∧
  list_calls (log (create_balancer (answers_after 3) ROUND_ROBIN first_ip
                     (JStr "lb") (JNum 80) None [] start).2) = 3%nat.
Proof.
  destruct (create_balancer_returns_first_resolved (answers_after 3) ROUND_ROBIN first_ip
              (JStr "lb") (JNum 80) None [] start
              (ex_create_balancer_nowait (answers_after 3) ROUND_ROBIN first_ip
                 (JStr "lb") (JNum 80) None [] start).2
              (list_balancers (answers_after 3)
                 (world_after_polls (answers_after 3) 2
                    (ex_create_balancer_nowait (answers_after 3) ROUND_ROBIN first_ip
                       (JStr "lb") (JNum 80) None [] start).2)).2
              pending ready 2 [] []) as [Hrun Hlog].
  - reflexivity.
  - reflexivity.
  - lia.
  - intros j Hj. exists [pending]. split.
    + destruct j as [|[|j]]; [reflexivity|reflexivity|lia].
    + intros x Hx [_ Hid]. apply list_elem_of_singleton in Hx. subst x.
      apply Hid. reflexivity.
  - reflexivity.
  - intros x Hx. apply elem_of_nil in Hx. contradiction.
  - reflexivity.
  - discriminate.
  - rewrite Hrun. cbn [fst snd]. rewrite Hlog. split; reflexivity.
Defined.

Lemma create_balancer_propagates_listing_error_witness :
  (create_balancer (refuses_at "/api/grid/loadbalancer/list" "Gateway timeout" el_pending)
     ROUND_ROBIN first_ip (JStr "lb") (JNum 80) None [] start).1
  = Err (TransportError (MkVendorExn "Exception" "Gateway timeout")).
Proof.
  destruct (create_balancer_propagates_listing_error
              (refuses_at "/api/grid/loadbalancer/list" "Gateway timeout" el_pending)
              ROUND_ROBIN first_ip (JStr "lb") (JNum 80) None [] start
              (ex_create_balancer_nowait
                 (refuses_at "/api/grid/loadbalancer/list" "Gateway timeout" el_pending)
                 ROUND_ROBIN first_ip (JStr "lb") (JNum 80) None [] start).2
              (list_balancers
                 (refuses_at "/api/grid/loadbalancer/list" "Gateway timeout" el_pending)
                 (ex_create_balancer_nowait
                    (refuses_at "/api/grid/loadbalancer/list" "Gateway timeout" el_pending)
                    ROUND_ROBIN first_ip (JStr "lb") (JNum 80) None [] start).2).2
              pending 0 (TransportError (MkVendorExn "Exception" "Gateway timeout")))
    as [Hrun _].
  - reflexivity.
  - reflexivity.
  - lia.
  - intros j Hj. lia.
  - reflexivity.
  - rewrite Hrun. reflexivity.
Defined.

Lemma create_balancer_result_has_identifier_witness :
  lb_id ready ≠ JNull ∧
  ∃ a w1,
    ex_create_balancer_nowait (answers_after 2) ROUND_ROBIN first_ip
      (JStr "lb") (JNum 80) None [] start = (Ok a, w1) ∧
    lb_name ready = lb_name a ∧
    (lb_id a ≠ JNull → ready = a ∧
       (create_balancer (answers_after 2) ROUND_ROBIN first_ip
          (JStr "lb") (JNum 80) None [] start).2 = w1).
Proof.
  apply (create_balancer_result_has_identifier (answers_after 2) ROUND_ROBIN first_ip
           (JStr "lb") (JNum 80) None [] start).
  reflexivity.
Defined.


Lemma member_changes_stop_at_failed_fetch_witness :
  balancer_attach_member (refuses "Unauthorized") ready m1 start
  = (Err (TransportError (MkVendorExn "Exception" "Unauthorized")),
     (balancer_list_members (refuses "Unauthorized") ready start).2) ∧
  balancer_detach_member (refuses "Unauthorized") ready m1 start
  = (Err (TransportError (MkVendorExn "Exception" "Unauthorized")),
     (balancer_list_members (refuses "Unauthorized") ready start).2).
Proof.
  apply (member_changes_stop_at_failed_fetch (refuses "Unauthorized") ready m1 start).
  reflexivity.
Defined.

Lemma member_changes_translate_edit_errors_witness :
  ((balancer_attach_member
      (refuses_at "/api/grid/loadbalancer/edit" "Update already pending" el_ready)
      ready m1 start).1 = Err (LibcloudLBImmutableError "Balancer is immutable") ∧
   (balancer_detach_member
      (refuses_at "/api/grid/loadbalancer/edit" "Update already pending" el_ready)
      ready m1 start).1 = Err (LibcloudLBImmutableError "Balancer is immutable")) ∧
  ((balancer_attach_member
      (refuses_at "/api/grid/loadbalancer/edit" "Internal error" el_ready)
      ready m1 start).1 = Err (UnboundLocalError "err") ∧
   (balancer_detach_member
      (refuses_at "/api/grid/loadbalancer/edit" "Internal error" el_ready)
      ready m1 start).1 = Err (UnboundLocalError "err")).
Proof.
  split.
  - destruct (member_changes_translate_edit_errors
                (refuses_at "/api/grid/loadbalancer/edit" "Update already pending" el_ready)
                ready m1 [m1; m2; m3] start
                (balancer_list_members
                   (refuses_at "/api/grid/loadbalancer/edit" "Update already pending"
                      el_ready) ready start).2) as [Hattach Hdetach].
    + reflexivity.
    + split.
      * apply (Hattach (MkVendorExn "Exception" "Update already pending") 2%nat).
        reflexivity.
      * apply (Hdetach (MkVendorExn "Exception" "Update already pending") 2%nat).
        reflexivity.
  - destruct (member_changes_translate_edit_errors
                (refuses_at "/api/grid/loadbalancer/edit" "Internal error" el_ready)
                ready m1 [m1; m2; m3] start
                (balancer_list_members
                   (refuses_at "/api/grid/loadbalancer/edit" "Internal error" el_ready)
                   ready start).2) as [Hattach Hdetach].
    + reflexivity.
    + split.
      * apply (Hattach (MkVendorExn "Exception" "Internal error") 2%nat).
        reflexivity.
      * apply (Hdetach (MkVendorExn "Exception" "Internal error") 2%nat).
        reflexivity.
Defined.

Lemma balancer_attach_member_resubmits_all_and_new_witness :
  ∃ params : gmap string Param,
    log (balancer_attach_member (answers el_ready) ready
           (MkMember JNull (JStr "10.0.0.4") (JNum 8080)) start).2
      = log (balancer_list_members (answers el_ready) ready start).2
        ++ [EvRequest (MkRequest "/api/grid/loadbalancer/edit" POST params)] ∧
    params !! "realiplist.0.ip" = Some (PVal (JStr "10.0.0.1")) ∧
    params !! "realiplist.3.ip" = Some (PVal (JStr "10.0.0.4")) ∧
    params !! "realiplist.3.port" = Some (PVal (JNum 8080)) ∧
    params !! "realiplist.4.ip" = None.
Proof.
  destruct (balancer_attach_member_resubmits_all_and_new (answers el_ready) ready
              (MkMember JNull (JStr "10.0.0.4") (JNum 8080)) [m1; m2; m3] start
              (balancer_list_members (answers el_ready) ready start).2)
    as (params & Hlog & _ & Hold & Hip & Hport & Hbeyond & _).
  - reflexivity.
  - exists params. split; [exact Hlog|].
    split; [exact (proj1 (Hold 0%nat m1 eq_refl))|].
    split; [exact Hip|]. split; [exact Hport|].
    apply (Hbeyond 4%nat). cbn. lia.
Defined.

Lemma balancer_detach_member_of_stranger_witness :
  log (balancer_detach_member (answers el_ready) ready
         (MkMember (JNum 99) (JStr "10.0.0.1") (JNum 80)) start).2
  = log (balancer_list_members (answers el_ready) ready start).2
    ++ [EvRequest (MkRequest "/api/grid/loadbalancer/edit" POST
                     (dict_update {["id" := PVal (JNum 7)]}
                        (_members_to_params [m1; m2; m3])))].
Proof.
  apply (balancer_detach_member_of_stranger (answers el_ready) ready
           (MkMember (JNum 99) (JStr "10.0.0.1") (JNum 80)) [m1; m2; m3] start).
  - reflexivity.
  - intros n Hn. apply elem_of_cons in Hn as [->|Hn]; [discriminate|].
    apply elem_of_cons in Hn as [->|Hn]; [discriminate|].
    apply list_elem_of_singleton in Hn. subst n. discriminate.
Defined.


Lemma to_balancers_follows_the_list_witness :
  _to_balancers (JObj [("list", JArr [el_ready; el_pending])]) = Ok [ready; pending] ∧
  _to_balancers (JObj [("list", JArr [el_ready; JObj [("id", JNum 8)]; el_pending])])
  = Err (KeyError (JStr "name")).
Proof.
  split.
  - apply (proj1 (to_balancers_follows_the_list
                    (JObj [("list", JArr [el_ready; el_pending])])
                    [el_ready; el_pending] eq_refl)).
    repeat constructor.
  - reflexivity.
Defined.

Lemma to_balancer_fields_witness :
  py_get el_pending "id" = Ok JNull ∧
  getitem el_pending "name" = Ok (JStr "lb") ∧
  (∃ st state_name,
     getitem el_pending "state" = Ok st ∧ getitem st "name" = Ok state_name ∧
     (UNKNOWN = RUNNING ↔ state_name = JStr "On")) ∧
  (∃ vip vip_ip,
     getitem el_pending "virtualip" = Ok vip ∧ getitem vip "ip" = Ok vip_ip ∧
     getitem vip_ip "ip" = Ok (JStr "9.9.9.9") ∧ getitem vip "port" = Ok (JNum 80)).
Proof.
  apply (to_balancer_fields el_pending pending). reflexivity.
Defined.

Lemma balancer_list_members_reads_first_element_witness :
  (balancer_list_members (answers el_ready) ready start).1 = Ok [m1; m2; m3] ∧
  (balancer_list_members answers_nothing ready start).1 = Err IndexError.
Proof.
  split.
  - destruct (balancer_list_members_reads_first_element (answers el_ready) ready start
                (MkResponse 200 (body el_ready)) 1%nat [el_ready]) as [_ Hfirst].
    + reflexivity.
    + reflexivity.
    + destruct (Hfirst el_ready [] eq_refl) as [_ Hparse].
      rewrite (Hparse members_json eq_refl). reflexivity.
  - destruct (balancer_list_members_reads_first_element answers_nothing ready start
                (MkResponse 200 (JObj [("list", JArr [])])) 1%nat []) as [Hempty _].
    + reflexivity.
    + reflexivity.
    + apply Hempty. reflexivity.
Defined.

Lemma get_balancer_of_empty_list_witness :
  (get_balancer answers_nothing {["balancer_id" := JNum 7]} start).1 = Err IndexError.
Proof.
  apply (get_balancer_of_empty_list answers_nothing {["balancer_id" := JNum 7]}
           {["id" := PVal (JNum 7)]} start
           (MkResponse 200 (JObj [("list", JArr [])])) 1%nat).
  - right. split; [reflexivity|]. exists (JNum 7). split; reflexivity.
  - reflexivity.
  - reflexivity.
Defined.


Lemma ex_create_balancer_nowait_request_witness :
  ∃ r,
    log (ex_create_balancer_nowait (answers el_ready) ROUND_ROBIN first_ip
           (JStr "lb") (JNum 80) (Some ROUND_ROBIN) [m1; m2] start).2 = [EvRequest r] ∧
    method r = GET ∧
    params r !! "name" = Some (PVal (JStr "lb")) ∧
    params r !! "virtualip.ip" = Some (PVal (JStr "9.9.9.9")) ∧
    params r !! "realiplist.1.ip" = Some (PVal (JStr "10.0.0.2")) ∧
    params r !! "realiplist.2.port" = None.
Proof.
  destruct (ex_create_balancer_nowait_request (answers el_ready) ROUND_ROBIN first_ip
              (JStr "lb") (JNum 80) (Some ROUND_ROBIN) [m1; m2] start start
              (JStr "9.9.9.9"))
    as (r & Hlog & _ & Hmethod & Hname & Hip & _ & _ & Hips & Hports & _).
  - reflexivity.
  - exists r. split; [exact Hlog|]. split; [exact Hmethod|]. split; [exact Hname|].
    split; [exact Hip|]. split; [exact (Hips 1%nat)|exact (Hports 2%nat)].
Defined.

Lemma create_stops_without_address_witness :
  ex_create_balancer_nowait (answers el_ready) ROUND_ROBIN no_ip
    (JStr "lb") (JNum 80) (Some LEAST_CONNECTIONS) [m1] start
  = (Err (Exception "No public unassigned IPs left"), start) ∧
  create_balancer (answers el_ready) ROUND_ROBIN no_ip
    (JStr "lb") (JNum 80) (Some LEAST_CONNECTIONS) [m1] start
  = (Err (Exception "No public unassigned IPs left"), start).
Proof.
  apply (create_stops_without_address (answers el_ready) ROUND_ROBIN no_ip
           (JStr "lb") (JNum 80) (Some LEAST_CONNECTIONS) [m1] start start).
  reflexivity.
Defined.

Lemma create_of_empty_list_witness :
  (ex_create_balancer_nowait answers_nothing ROUND_ROBIN first_ip
     (JStr "lb") (JNum 80) None [] start).1 = Err IndexError ∧
  list_calls (log (create_balancer answers_nothing ROUND_ROBIN first_ip
                     (JStr "lb") (JNum 80) None [] start).2) = 0%nat ∧
  (create_balancer answers_nothing ROUND_ROBIN first_ip
     (JStr "lb") (JNum 80) None [] start).1 = Err IndexError.
Proof.
  apply (create_of_empty_list answers_nothing ROUND_ROBIN first_ip
           (JStr "lb") (JNum 80) None [] start start (JStr "9.9.9.9")
           (MkResponse 200 (JObj [("list", JArr [])]))).
  - reflexivity.
  - intros r _. exists 1%nat. reflexivity.
  - reflexivity.
Defined.
